(** * Customer Insights Dashboard: the Angular front end

    A shallow embedding of [app.service.ts] (the [AppService] HTTP client
  wrapper and its DTO interfaces) and of [app.component.ts] (the
  [AppComponent] view model), followed by the properties of the request
  plumbing, the pagination state and the top-accounts chart.

  Conventions.
  - A TypeScript [number] that the program computes itself or uses as a
    count or a score is an integer [Z]: [page] is only ever assigned 1,
    [page + 1] or [page - 1], and that arithmetic, [page > 1] and the
    difference inside the sort comparator are exact on integers.  The
    page count is different: [totalPages] is whatever number the response
    carries, copied as it is, so it is a [Js.Number], which may be
    fractional, infinite or not a number.
  - An optional argument ([status?: string]) is a [Js.Maybe]: JavaScript
    tells [undefined], [null] and a present value apart, and the guards of
    the service ([if (status)], [minHealth != null]) are written for all
    three.
  - An [Observable] returned by [HttpClient] is cold and single-shot: the
    request leaves when [subscribe] is called and the subscriber is later
    notified exactly once, with [next] or with [error]. *)

From Stdlib Require Import ZArith QArith Qround.
From stdpp Require Import base option list sorting gmap strings.

Close Scope Q_scope.

Local Open Scope string_scope.
Local Open Scope nat_scope.
Local Open Scope list_scope.
Local Open Scope stdpp_scope.

(** ** The fragment of JavaScript the program relies on *)

Module Js.

(** A value that may be absent in either of JavaScript's two ways. *)
Inductive Maybe (A : Type) : Type :=
| undefined : Maybe A
| null : Maybe A
| val (a : A) : Maybe A.
Global Arguments undefined {A}.
Global Arguments null {A}.
Global Arguments val {A} a.

(** [ToBoolean] on a string: only the empty string is falsy. *)
Definition truthy_string (s : string) : bool :=
  match s with
  | EmptyString => false
  | String _ _ => true
  end.

(** [ToBoolean] on [string | null | undefined]. *)
Definition truthy (v : Maybe string) : bool :=
  match v with
  | val s => truthy_string s
  | _ => false
  end.

(** [v != null]: loose inequality, false for [null] and for [undefined]. *)
Definition not_nullish {A} (v : Maybe A) : bool :=
  match v with
  | val _ => true
  | _ => false
  end.

(** [s || undefined] on a string [s]. *)
Definition or_undefined (s : string) : Maybe string :=
  if truthy_string s then val s else undefined.

(** [v != null ? v : undefined]. *)
Definition nullish_to_undefined {A} (v : Maybe A) : Maybe A :=
  if not_nullish v then v else undefined.

(** A number as the comparison operators see it: not a number, one of
    the two infinities, or a finite value, which is a rational. *)
Inductive Number : Type :=
| NaN
| NegInfinity
| Infinity
| finite (q : Q).

(** An integer as a number. *)
Definition of_Z (n : Z) : Number := finite (inject_Z n).

(** [a < b]: false as soon as one side is not a number. *)
Definition ltb (a b : Number) : bool :=
  match a, b with
  | finite p, finite q => negb (Qle_bool q p)
  | finite _, Infinity => true
  | NegInfinity, finite _ => true
  | NegInfinity, Infinity => true
  | _, _ => false
  end.

(** [a <= b]: false as soon as one side is not a number. *)
Definition leb (a b : Number) : bool :=
  match a, b with
  | finite p, finite q => Qle_bool p q
  | finite _, Infinity => true
  | NegInfinity, finite _ => true
  | NegInfinity, Infinity => true
  | NegInfinity, NegInfinity => true
  | Infinity, Infinity => true
  | _, _ => false
  end.

(** [Array.prototype.slice(b, e)] for non-negative [b] and [e]: both ends
    are clamped to the length of the array. *)
Definition slice {A} (b e : nat) (l : list A) : list A :=
  take (e - b) (drop b l).

(** [Array.prototype.sort(cmp)].  The language fixes the result for a
    consistent comparator: the elements in an order where [cmp x y <= 0]
    for [x] before [y], elements that compare equal keeping their relative
    order (the sort is stable).  [sort] computes that list by insertion:
    an element goes in front of the first element of the sorted tail that
    it does not have to follow. *)
Section Sort.
Context {A : Type} (cmp : A → A → Z).

Fixpoint insert_sorted (x : A) (l : list A) : list A :=
  match l with
  | [] => [x]
  | y :: l' =>
      if (cmp x y <=? 0)%Z then x :: y :: l' else y :: insert_sorted x l'
  end.

Fixpoint sort (l : list A) : list A :=
  match l with
  | [] => []
  | x :: l' => insert_sorted x (sort l')
  end.
End Sort.

End Js.

(** ** The fragment of [@angular/common/http] the service uses *)

Module Http.

Inductive Method : Set := GET | POST | PUT | PATCH | DELETE.

(** A query parameter value: [HttpParams.set] accepts strings and numbers
    and keeps them as given until the URL is serialised. *)
Inductive ParamValue : Set :=
| PNum (n : Z)
| PStr (s : string).

(** [HttpParams]: an immutable, insertion-ordered map from parameter names
    to values. *)
Definition HttpParams : Type := list (string * ParamValue).

(** [new HttpParams()]. *)
Definition new_params : HttpParams := [].

(** [params.set(k, v)]: replaces the value of [k] where it stands, or adds
    [k] at the end. *)
Fixpoint set (k : string) (v : ParamValue) (ps : HttpParams) : HttpParams :=
  match ps with
  | [] => [(k, v)]
  | (k', v') :: ps' =>
      if String.eqb k k' then (k, v) :: ps' else (k', v') :: set k v ps'
  end.

(** [params.get(k)]. *)
Fixpoint get (k : string) (ps : HttpParams) : option ParamValue :=
  match ps with
  | [] => None
  | (k', v') :: ps' => if String.eqb k k' then Some v' else get k ps'
  end.

(** [params.has(k)]. *)
Definition has (k : string) (ps : HttpParams) : bool :=
  match get k ps with Some _ => true | None => false end.

(** [params.keys()]. *)
Definition keys (ps : HttpParams) : list string := ps.*1.

Record Request : Type := {
  method : Method;
  url : string;
  params : HttpParams
}.

(** [http.get(url, { params })]. *)
Definition http_get (u : string) (ps : HttpParams) : Request :=
  {| method := GET; url := u; params := ps |}.

Definition is_write (m : Method) : bool :=
  match m with
  | GET => false
  | POST | PUT | PATCH | DELETE => true
  end.

End Http.

(** ** The DTO interfaces of [app.service.ts] *)

Module SummaryResponse.
Record t : Type := {
  total_accounts : Z;
  active_accounts : Z;
  inactive_accounts : Z;
  total_notifications_billed : Z;
  avg_notifications_billed_per_active : Z;
  total_messages_processed : Z;
  avg_messages_per_account : Z;
  avg_health_score : Z;
  at_risk_accounts : Z;
  churned_accounts : Z
}.
End SummaryResponse.

Module AccountInsights.
Record t : Type := {
  account_label : string;
  subscription_status : string;
  health_score : Z;
  automation_count : Z;
  total_records : Z;
  messages_processed : Z;
  notifications_billed : Z;
  churn_risk : string
}.
End AccountInsights.

Module PaginatedRecordsResponse.
Record t : Type := {
  page : Z;
  page_size : Z;
  total_items : Z;
  total_pages : Js.Number;
  items : list AccountInsights.t
}.
End PaginatedRecordsResponse.

Module HealthByStatusItem.
Record t : Type := {
  status : string;
  account_count : Z
}.
End HealthByStatusItem.

Module NotificationsOverTimeItem.
Record t : Type := {
  date : string;
  total_notifications_billed : Z
}.
End NotificationsOverTimeItem.

(** ** [AppService] *)

Module AppService.

Definition baseUrl : string := "http://localhost:8000".

Definition getSummary : Http.Request :=
  Http.http_get (baseUrl +:+ "/summary") Http.new_params.

Definition getRecords (page pageSize : Z) (status : Js.Maybe string)
    (minHealth : Js.Maybe Z) (search : Js.Maybe string) : Http.Request :=
  let params :=
    Http.set "page_size" (Http.PNum pageSize)
      (Http.set "page" (Http.PNum page) Http.new_params) in
  let params :=
    if Js.truthy status
    then match status with
         | Js.val s => Http.set "status" (Http.PStr s) params
         | _ => params
         end
    else params in
  let params :=
    if Js.not_nullish minHealth
    then match minHealth with
         | Js.val n => Http.set "min_health" (Http.PNum n) params
         | _ => params
         end
    else params in
  let params :=
    if Js.truthy search
    then match search with
         | Js.val s => Http.set "search" (Http.PStr s) params
         | _ => params
         end
    else params in
  Http.http_get (baseUrl +:+ "/records") params.

Definition getHealthByStatus : Http.Request :=
  Http.http_get (baseUrl +:+ "/analytics/health-by-status") Http.new_params.

Definition getNotificationsOverTime : Http.Request :=
  Http.http_get (baseUrl +:+ "/analytics/notifications-over-time")
    Http.new_params.

(** A call of a method of the service, with its arguments as passed. *)
Inductive Call : Type :=
| GetSummary
| GetRecords (page pageSize : Z) (status : Js.Maybe string)
    (minHealth : Js.Maybe Z) (search : Js.Maybe string)
| GetHealthByStatus
| GetNotificationsOverTime.

(** The request the call builds. *)
Definition request (c : Call) : Http.Request :=
  match c with
  | GetSummary => getSummary
  | GetRecords page pageSize status minHealth search =>
      getRecords page pageSize status minHealth search
  | GetHealthByStatus => getHealthByStatus
  | GetNotificationsOverTime => getNotificationsOverTime
  end.

End AppService.

(** ** [AppComponent] *)

Module AppComponent.

(** A chart dataset, [{ data: number[]; label: string }]. *)
Record Dataset : Type := {
  data : list Z;
  label : string
}.

(** The chart option objects of the component: [{ responsive: true }]. *)
Record ChartOptions : Type := {
  responsive : bool
}.

(** The fields of the class, in the order of their declaration.  A field
    declared with [?] starts as [undefined] and is only ever assigned a
    value or [undefined]: it is an [option].  [filterMinHealth] is read
    with [!= null], so it keeps JavaScript's three cases. *)
Record t : Type := {
  title : string;
  summary : option SummaryResponse.t;
  loadingSummary : bool;
  summaryError : option string;
  records : list AccountInsights.t;
  recordsLoading : bool;
  recordsError : option string;
  page : Z;
  pageSize : Z;
  totalPages : Js.Number;
  filterStatus : string;
  filterMinHealth : Js.Maybe Z;
  filterSearch : string;
  pieLabels : list string;
  pieData : list Z;
  healthBarLabels : list string;
  healthBarDatasets : list Dataset;
  healthBarOptions : ChartOptions;
  notificationsLineLabels : list string;
  notificationsLineDatasets : list Dataset;
  notificationsLineOptions : ChartOptions;
  topAccountsBarLabels : list string;
  topAccountsBarDatasets : list Dataset;
  topAccountsBarOptions : ChartOptions
}.

Definition set_summary (v : option SummaryResponse.t) (c : t) : t :=
  {| title := title c; summary := v; loadingSummary := loadingSummary c;
     summaryError := summaryError c; records := records c;
     recordsLoading := recordsLoading c; recordsError := recordsError c;
     page := page c; pageSize := pageSize c; totalPages := totalPages c;
     filterStatus := filterStatus c; filterMinHealth := filterMinHealth c;
     filterSearch := filterSearch c; pieLabels := pieLabels c;
     pieData := pieData c; healthBarLabels := healthBarLabels c;
     healthBarDatasets := healthBarDatasets c;
     healthBarOptions := healthBarOptions c;
     notificationsLineLabels := notificationsLineLabels c;
     notificationsLineDatasets := notificationsLineDatasets c;
     notificationsLineOptions := notificationsLineOptions c;
     topAccountsBarLabels := topAccountsBarLabels c;
     topAccountsBarDatasets := topAccountsBarDatasets c;
     topAccountsBarOptions := topAccountsBarOptions c |}.

Definition set_loadingSummary (v : bool) (c : t) : t :=
  {| title := title c; summary := summary c; loadingSummary := v;
     summaryError := summaryError c; records := records c;
     recordsLoading := recordsLoading c; recordsError := recordsError c;
     page := page c; pageSize := pageSize c; totalPages := totalPages c;
     filterStatus := filterStatus c; filterMinHealth := filterMinHealth c;
     filterSearch := filterSearch c; pieLabels := pieLabels c;
     pieData := pieData c; healthBarLabels := healthBarLabels c;
     healthBarDatasets := healthBarDatasets c;
     healthBarOptions := healthBarOptions c;
     notificationsLineLabels := notificationsLineLabels c;
     notificationsLineDatasets := notificationsLineDatasets c;
     notificationsLineOptions := notificationsLineOptions c;
     topAccountsBarLabels := topAccountsBarLabels c;
     topAccountsBarDatasets := topAccountsBarDatasets c;
     topAccountsBarOptions := topAccountsBarOptions c |}.

Definition set_summaryError (v : option string) (c : t) : t :=
  {| title := title c; summary := summary c;
     loadingSummary := loadingSummary c; summaryError := v;
     records := records c; recordsLoading := recordsLoading c;
     recordsError := recordsError c; page := page c;
     pageSize := pageSize c; totalPages := totalPages c;
     filterStatus := filterStatus c; filterMinHealth := filterMinHealth c;
     filterSearch := filterSearch c; pieLabels := pieLabels c;
     pieData := pieData c; healthBarLabels := healthBarLabels c;
     healthBarDatasets := healthBarDatasets c;
     healthBarOptions := healthBarOptions c;
     notificationsLineLabels := notificationsLineLabels c;
     notificationsLineDatasets := notificationsLineDatasets c;
     notificationsLineOptions := notificationsLineOptions c;
     topAccountsBarLabels := topAccountsBarLabels c;
     topAccountsBarDatasets := topAccountsBarDatasets c;
     topAccountsBarOptions := topAccountsBarOptions c |}.

Definition set_records (v : list AccountInsights.t) (c : t) : t :=
  {| title := title c; summary := summary c;
     loadingSummary := loadingSummary c; summaryError := summaryError c;
     records := v; recordsLoading := recordsLoading c;
     recordsError := recordsError c; page := page c;
     pageSize := pageSize c; totalPages := totalPages c;
     filterStatus := filterStatus c; filterMinHealth := filterMinHealth c;
     filterSearch := filterSearch c; pieLabels := pieLabels c;
     pieData := pieData c; healthBarLabels := healthBarLabels c;
     healthBarDatasets := healthBarDatasets c;
     healthBarOptions := healthBarOptions c;
     notificationsLineLabels := notificationsLineLabels c;
     notificationsLineDatasets := notificationsLineDatasets c;
     notificationsLineOptions := notificationsLineOptions c;
     topAccountsBarLabels := topAccountsBarLabels c;
     topAccountsBarDatasets := topAccountsBarDatasets c;
     topAccountsBarOptions := topAccountsBarOptions c |}.

Definition set_recordsLoading (v : bool) (c : t) : t :=
  {| title := title c; summary := summary c;
     loadingSummary := loadingSummary c; summaryError := summaryError c;
     records := records c; recordsLoading := v;
     recordsError := recordsError c; page := page c;
     pageSize := pageSize c; totalPages := totalPages c;
     filterStatus := filterStatus c; filterMinHealth := filterMinHealth c;
     filterSearch := filterSearch c; pieLabels := pieLabels c;
     pieData := pieData c; healthBarLabels := healthBarLabels c;
     healthBarDatasets := healthBarDatasets c;
     healthBarOptions := healthBarOptions c;
     notificationsLineLabels := notificationsLineLabels c;
     notificationsLineDatasets := notificationsLineDatasets c;
     notificationsLineOptions := notificationsLineOptions c;
     topAccountsBarLabels := topAccountsBarLabels c;
     topAccountsBarDatasets := topAccountsBarDatasets c;
     topAccountsBarOptions := topAccountsBarOptions c |}.

Definition set_recordsError (v : option string) (c : t) : t :=
  {| title := title c; summary := summary c;
     loadingSummary := loadingSummary c; summaryError := summaryError c;
     records := records c; recordsLoading := recordsLoading c;
     recordsError := v; page := page c; pageSize := pageSize c;
     totalPages := totalPages c; filterStatus := filterStatus c;
     filterMinHealth := filterMinHealth c; filterSearch := filterSearch c;
     pieLabels := pieLabels c; pieData := pieData c;
     healthBarLabels := healthBarLabels c;
     healthBarDatasets := healthBarDatasets c;
     healthBarOptions := healthBarOptions c;
     notificationsLineLabels := notificationsLineLabels c;
     notificationsLineDatasets := notificationsLineDatasets c;
     notificationsLineOptions := notificationsLineOptions c;
     topAccountsBarLabels := topAccountsBarLabels c;
     topAccountsBarDatasets := topAccountsBarDatasets c;
     topAccountsBarOptions := topAccountsBarOptions c |}.

Definition set_page (v : Z) (c : t) : t :=
  {| title := title c; summary := summary c;
     loadingSummary := loadingSummary c; summaryError := summaryError c;
     records := records c; recordsLoading := recordsLoading c;
     recordsError := recordsError c; page := v; pageSize := pageSize c;
     totalPages := totalPages c; filterStatus := filterStatus c;
     filterMinHealth := filterMinHealth c; filterSearch := filterSearch c;
     pieLabels := pieLabels c; pieData := pieData c;
     healthBarLabels := healthBarLabels c;
     healthBarDatasets := healthBarDatasets c;
     healthBarOptions := healthBarOptions c;
     notificationsLineLabels := notificationsLineLabels c;
     notificationsLineDatasets := notificationsLineDatasets c;
     notificationsLineOptions := notificationsLineOptions c;
     topAccountsBarLabels := topAccountsBarLabels c;
     topAccountsBarDatasets := topAccountsBarDatasets c;
     topAccountsBarOptions := topAccountsBarOptions c |}.

Definition set_totalPages (v : Js.Number) (c : t) : t :=
  {| title := title c; summary := summary c;
     loadingSummary := loadingSummary c; summaryError := summaryError c;
     records := records c; recordsLoading := recordsLoading c;
     recordsError := recordsError c; page := page c;
     pageSize := pageSize c; totalPages := v;
     filterStatus := filterStatus c; filterMinHealth := filterMinHealth c;
     filterSearch := filterSearch c; pieLabels := pieLabels c;
     pieData := pieData c; healthBarLabels := healthBarLabels c;
     healthBarDatasets := healthBarDatasets c;
     healthBarOptions := healthBarOptions c;
     notificationsLineLabels := notificationsLineLabels c;
     notificationsLineDatasets := notificationsLineDatasets c;
     notificationsLineOptions := notificationsLineOptions c;
     topAccountsBarLabels := topAccountsBarLabels c;
     topAccountsBarDatasets := topAccountsBarDatasets c;
     topAccountsBarOptions := topAccountsBarOptions c |}.

Definition set_filterStatus (v : string) (c : t) : t :=
  {| title := title c; summary := summary c;
     loadingSummary := loadingSummary c; summaryError := summaryError c;
     records := records c; recordsLoading := recordsLoading c;
     recordsError := recordsError c; page := page c;
     pageSize := pageSize c; totalPages := totalPages c;
     filterStatus := v; filterMinHealth := filterMinHealth c;
     filterSearch := filterSearch c; pieLabels := pieLabels c;
     pieData := pieData c; healthBarLabels := healthBarLabels c;
     healthBarDatasets := healthBarDatasets c;
     healthBarOptions := healthBarOptions c;
     notificationsLineLabels := notificationsLineLabels c;
     notificationsLineDatasets := notificationsLineDatasets c;
     notificationsLineOptions := notificationsLineOptions c;
     topAccountsBarLabels := topAccountsBarLabels c;
     topAccountsBarDatasets := topAccountsBarDatasets c;
     topAccountsBarOptions := topAccountsBarOptions c |}.

Definition set_filterMinHealth (v : Js.Maybe Z) (c : t) : t :=
  {| title := title c; summary := summary c;
     loadingSummary := loadingSummary c; summaryError := summaryError c;
     records := records c; recordsLoading := recordsLoading c;
     recordsError := recordsError c; page := page c;
     pageSize := pageSize c; totalPages := totalPages c;
     filterStatus := filterStatus c; filterMinHealth := v;
     filterSearch := filterSearch c; pieLabels := pieLabels c;
     pieData := pieData c; healthBarLabels := healthBarLabels c;
     healthBarDatasets := healthBarDatasets c;
     healthBarOptions := healthBarOptions c;
     notificationsLineLabels := notificationsLineLabels c;
     notificationsLineDatasets := notificationsLineDatasets c;
     notificationsLineOptions := notificationsLineOptions c;
     topAccountsBarLabels := topAccountsBarLabels c;
     topAccountsBarDatasets := topAccountsBarDatasets c;
     topAccountsBarOptions := topAccountsBarOptions c |}.

Definition set_filterSearch (v : string) (c : t) : t :=
  {| title := title c; summary := summary c;
     loadingSummary := loadingSummary c; summaryError := summaryError c;
     records := records c; recordsLoading := recordsLoading c;
     recordsError := recordsError c; page := page c;
     pageSize := pageSize c; totalPages := totalPages c;
     filterStatus := filterStatus c; filterMinHealth := filterMinHealth c;
     filterSearch := v; pieLabels := pieLabels c; pieData := pieData c;
     healthBarLabels := healthBarLabels c;
     healthBarDatasets := healthBarDatasets c;
     healthBarOptions := healthBarOptions c;
     notificationsLineLabels := notificationsLineLabels c;
     notificationsLineDatasets := notificationsLineDatasets c;
     notificationsLineOptions := notificationsLineOptions c;
     topAccountsBarLabels := topAccountsBarLabels c;
     topAccountsBarDatasets := topAccountsBarDatasets c;
     topAccountsBarOptions := topAccountsBarOptions c |}.

Definition set_pieData (v : list Z) (c : t) : t :=
  {| title := title c; summary := summary c;
     loadingSummary := loadingSummary c; summaryError := summaryError c;
     records := records c; recordsLoading := recordsLoading c;
     recordsError := recordsError c; page := page c;
     pageSize := pageSize c; totalPages := totalPages c;
     filterStatus := filterStatus c; filterMinHealth := filterMinHealth c;
     filterSearch := filterSearch c; pieLabels := pieLabels c;
     pieData := v; healthBarLabels := healthBarLabels c;
     healthBarDatasets := healthBarDatasets c;
     healthBarOptions := healthBarOptions c;
     notificationsLineLabels := notificationsLineLabels c;
     notificationsLineDatasets := notificationsLineDatasets c;
     notificationsLineOptions := notificationsLineOptions c;
     topAccountsBarLabels := topAccountsBarLabels c;
     topAccountsBarDatasets := topAccountsBarDatasets c;
     topAccountsBarOptions := topAccountsBarOptions c |}.

Definition set_healthBarLabels (v : list string) (c : t) : t :=
  {| title := title c; summary := summary c;
     loadingSummary := loadingSummary c; summaryError := summaryError c;
     records := records c; recordsLoading := recordsLoading c;
     recordsError := recordsError c; page := page c;
     pageSize := pageSize c; totalPages := totalPages c;
     filterStatus := filterStatus c; filterMinHealth := filterMinHealth c;
     filterSearch := filterSearch c; pieLabels := pieLabels c;
     pieData := pieData c; healthBarLabels := v;
     healthBarDatasets := healthBarDatasets c;
     healthBarOptions := healthBarOptions c;
     notificationsLineLabels := notificationsLineLabels c;
     notificationsLineDatasets := notificationsLineDatasets c;
     notificationsLineOptions := notificationsLineOptions c;
     topAccountsBarLabels := topAccountsBarLabels c;
     topAccountsBarDatasets := topAccountsBarDatasets c;
     topAccountsBarOptions := topAccountsBarOptions c |}.

Definition set_healthBarDatasets (v : list Dataset) (c : t) : t :=
  {| title := title c; summary := summary c;
     loadingSummary := loadingSummary c; summaryError := summaryError c;
     records := records c; recordsLoading := recordsLoading c;
     recordsError := recordsError c; page := page c;
     pageSize := pageSize c; totalPages := totalPages c;
     filterStatus := filterStatus c; filterMinHealth := filterMinHealth c;
     filterSearch := filterSearch c; pieLabels := pieLabels c;
     pieData := pieData c; healthBarLabels := healthBarLabels c;
     healthBarDatasets := v; healthBarOptions := healthBarOptions c;
     notificationsLineLabels := notificationsLineLabels c;
     notificationsLineDatasets := notificationsLineDatasets c;
     notificationsLineOptions := notificationsLineOptions c;
     topAccountsBarLabels := topAccountsBarLabels c;
     topAccountsBarDatasets := topAccountsBarDatasets c;
     topAccountsBarOptions := topAccountsBarOptions c |}.

Definition set_notificationsLineLabels (v : list string) (c : t) : t :=
  {| title := title c; summary := summary c;
     loadingSummary := loadingSummary c; summaryError := summaryError c;
     records := records c; recordsLoading := recordsLoading c;
     recordsError := recordsError c; page := page c;
     pageSize := pageSize c; totalPages := totalPages c;
     filterStatus := filterStatus c; filterMinHealth := filterMinHealth c;
     filterSearch := filterSearch c; pieLabels := pieLabels c;
     pieData := pieData c; healthBarLabels := healthBarLabels c;
     healthBarDatasets := healthBarDatasets c;
     healthBarOptions := healthBarOptions c; notificationsLineLabels := v;
     notificationsLineDatasets := notificationsLineDatasets c;
     notificationsLineOptions := notificationsLineOptions c;
     topAccountsBarLabels := topAccountsBarLabels c;
     topAccountsBarDatasets := topAccountsBarDatasets c;
     topAccountsBarOptions := topAccountsBarOptions c |}.

Definition set_notificationsLineDatasets (v : list Dataset) (c : t) : t :=
  {| title := title c; summary := summary c;
     loadingSummary := loadingSummary c; summaryError := summaryError c;
     records := records c; recordsLoading := recordsLoading c;
     recordsError := recordsError c; page := page c;
     pageSize := pageSize c; totalPages := totalPages c;
     filterStatus := filterStatus c; filterMinHealth := filterMinHealth c;
     filterSearch := filterSearch c; pieLabels := pieLabels c;
     pieData := pieData c; healthBarLabels := healthBarLabels c;
     healthBarDatasets := healthBarDatasets c;
     healthBarOptions := healthBarOptions c;
     notificationsLineLabels := notificationsLineLabels c;
     notificationsLineDatasets := v;
     notificationsLineOptions := notificationsLineOptions c;
     topAccountsBarLabels := topAccountsBarLabels c;
     topAccountsBarDatasets := topAccountsBarDatasets c;
     topAccountsBarOptions := topAccountsBarOptions c |}.

Definition set_topAccountsBarLabels (v : list string) (c : t) : t :=
  {| title := title c; summary := summary c;
     loadingSummary := loadingSummary c; summaryError := summaryError c;
     records := records c; recordsLoading := recordsLoading c;
     recordsError := recordsError c; page := page c;
     pageSize := pageSize c; totalPages := totalPages c;
     filterStatus := filterStatus c; filterMinHealth := filterMinHealth c;
     filterSearch := filterSearch c; pieLabels := pieLabels c;
     pieData := pieData c; healthBarLabels := healthBarLabels c;
     healthBarDatasets := healthBarDatasets c;
     healthBarOptions := healthBarOptions c;
     notificationsLineLabels := notificationsLineLabels c;
     notificationsLineDatasets := notificationsLineDatasets c;
     notificationsLineOptions := notificationsLineOptions c;
     topAccountsBarLabels := v;
     topAccountsBarDatasets := topAccountsBarDatasets c;
     topAccountsBarOptions := topAccountsBarOptions c |}.

Definition set_topAccountsBarDatasets (v : list Dataset) (c : t) : t :=
  {| title := title c; summary := summary c;
     loadingSummary := loadingSummary c; summaryError := summaryError c;
     records := records c; recordsLoading := recordsLoading c;
     recordsError := recordsError c; page := page c;
     pageSize := pageSize c; totalPages := totalPages c;
     filterStatus := filterStatus c; filterMinHealth := filterMinHealth c;
     filterSearch := filterSearch c; pieLabels := pieLabels c;
     pieData := pieData c; healthBarLabels := healthBarLabels c;
     healthBarDatasets := healthBarDatasets c;
     healthBarOptions := healthBarOptions c;
     notificationsLineLabels := notificationsLineLabels c;
     notificationsLineDatasets := notificationsLineDatasets c;
     notificationsLineOptions := notificationsLineOptions c;
     topAccountsBarLabels := topAccountsBarLabels c;
     topAccountsBarDatasets := v;
     topAccountsBarOptions := topAccountsBarOptions c |}.


(** The field initialisers of the class. *)
Definition initial : t :=
  {| title := "Customer Insights Dashboard";
     summary := None;
     loadingSummary := false;
     summaryError := None;
     records := [];
     recordsLoading := false;
     recordsError := None;
     page := 1;
     pageSize := 5;
     totalPages := Js.of_Z 1;
     filterStatus := "";
     filterMinHealth := Js.undefined;
     filterSearch := "";
     pieLabels := ["Active"; "Inactive"];
     pieData := [0%Z; 0%Z];
     healthBarLabels := [];
     healthBarDatasets := [{| data := []; label := "Accounts" |}];
     healthBarOptions := {| responsive := true |};
     notificationsLineLabels := [];
     notificationsLineDatasets :=
       [{| data := []; label := "Notifications Billed" |}];
     notificationsLineOptions := {| responsive := true |};
     topAccountsBarLabels := [];
     topAccountsBarDatasets :=
       [{| data := []; label := "Notifications Billed" |}];
     topAccountsBarOptions := {| responsive := true |} |}.

(** *** The component in its environment *)

(** The four observer objects the component passes to [subscribe]; each is
    a pair of closures over [this] and nothing else. *)
Inductive Subscriber : Set :=
| SummarySubscriber
| RecordsSubscriber
| HealthByStatusSubscriber
| NotificationsOverTimeSubscriber.

(** What the methods of the component can read and write: the component
    itself, the calls made on the injected [appService] so far with their
    arguments (oldest first), the requests handed to [HttpClient] so far
    (oldest first), the subscriptions still waiting for their notification
    (keyed by the position of their request in [sent]) and the lines
    written with [console.error] (message and error). *)
Record World : Type := {
  this : t;
  called : list AppService.Call;
  sent : list Http.Request;
  inflight : gmap nat Subscriber;
  console : list (string * string)
}.

Definition world_of (c : t) : World :=
  {| this := c; called := []; sent := []; inflight := ∅; console := [] |}.

(** A method body: a state transformer over [World] with a result. *)
Definition Action (A : Type) : Type := World → A * World.

#[global] Instance Action_ret : MRet Action := λ A a w, (a, w).
#[global] Instance Action_bind : MBind Action :=
  λ A B f m w, f (m w).1 (m w).2.

Definition exec (m : Action unit) (w : World) : World := (m w).2.

(** [this.f = v] *)
Definition assign (f : t → t) : Action unit := λ w,
  (tt, {| this := f (this w); called := called w; sent := sent w;
          inflight := inflight w; console := console w |}).

(** an expression over the fields of [this] *)
Definition read {A} (f : t → A) : Action A := λ w, (f (this w), w).

(** [this.appService.m(args)]: the call is made with these arguments and
    returns the observable of the request it builds. *)
Definition appService (c : AppService.Call) : Action Http.Request := λ w,
  (AppService.request c,
   {| this := this w; called := called w ++ [c]; sent := sent w;
      inflight := inflight w; console := console w |}).

(** [request.subscribe(observer)]: the request leaves and the observer
    waits for its notification.  Nothing already in flight is touched. *)
Definition subscribe (r : Http.Request) (k : Subscriber) : Action unit := λ w,
  (tt, {| this := this w; called := called w; sent := sent w ++ [r];
          inflight := <[length (sent w) := k]> (inflight w);
          console := console w |}).

(** [console.error(msg, err)] *)
Definition console_error (msg err : string) : Action unit := λ w,
  (tt, {| this := this w; called := called w; sent := sent w;
          inflight := inflight w; console := console w ++ [(msg, err)] |}).

(** The subscription [id] has been notified and is complete. *)
Definition complete (id : nat) (w : World) : World :=
  {| this := this w; called := called w; sent := sent w;
     inflight := delete id (inflight w); console := console w |}.

(** *** Methods *)

(** [(a, b) => b.notifications_billed - a.notifications_billed] *)
Definition by_notifications_billed_desc (a b : AccountInsights.t) : Z :=
  (AccountInsights.notifications_billed b
   - AccountInsights.notifications_billed a)%Z.

(** [[...this.records].sort(...).slice(0, 5)]: as a value the spread copy
    is the list itself; the copy matters for what [sort] may overwrite, see
    [ArrayHeap] below. *)
Definition top_accounts (rs : list AccountInsights.t) : list AccountInsights.t :=
  Js.slice 0 5 (Js.sort by_notifications_billed_desc rs).

Definition updateTopAccountsChart : Action unit :=
  sorted ← read (λ c, top_accounts (records c));
  assign (set_topAccountsBarLabels (AccountInsights.account_label <$> sorted));;
  assign (set_topAccountsBarDatasets
            [{| data := AccountInsights.notifications_billed <$> sorted;
                label := "Notifications Billed" |}]).

Definition loadSummary : Action unit :=
  assign (set_loadingSummary true);;
  assign (set_summaryError None);;
  r ← appService AppService.GetSummary;
  subscribe r SummarySubscriber.

Definition loadRecords : Action unit :=
  assign (set_recordsLoading true);;
  assign (set_recordsError None);;
  status ← read (λ c, Js.or_undefined (filterStatus c));
  minHealth ← read (λ c, Js.nullish_to_undefined (filterMinHealth c));
  search ← read (λ c, Js.or_undefined (filterSearch c));
  p ← read page;
  ps ← read pageSize;
  r ← appService (AppService.GetRecords p ps status minHealth search);
  subscribe r RecordsSubscriber.

Definition applyFilters : Action unit :=
  assign (set_page 1);;
  loadRecords.

Definition clearFilters : Action unit :=
  assign (set_filterStatus "");;
  assign (set_filterMinHealth Js.undefined);;
  assign (set_filterSearch "");;
  assign (set_page 1);;
  loadRecords.

Definition nextPage : Action unit :=
  go ← read (λ c, Js.ltb (Js.of_Z (page c)) (totalPages c));
  if go : bool
  then assign (λ c, set_page (page c + 1) c);; loadRecords
  else mret tt.

Definition prevPage : Action unit :=
  go ← read (λ c, bool_decide (page c > 1)%Z);
  if go : bool
  then assign (λ c, set_page (page c - 1) c);; loadRecords
  else mret tt.

Definition loadHealthByStatus : Action unit :=
  r ← appService AppService.GetHealthByStatus;
  subscribe r HealthByStatusSubscriber.

Definition loadNotificationsOverTime : Action unit :=
  r ← appService AppService.GetNotificationsOverTime;
  subscribe r NotificationsOverTimeSubscriber.

Definition ngOnInit : Action unit :=
  loadSummary;;
  loadRecords;;
  loadHealthByStatus;;
  loadNotificationsOverTime.

(** *** Observers *)

(** What a subscriber is notified with: the body of a successful response,
    or an error. *)
Inductive Notification : Type :=
| NextSummary (data : SummaryResponse.t)
| NextRecords (resp : PaginatedRecordsResponse.t)
| NextHealthByStatus (items : list HealthByStatusItem.t)
| NextNotificationsOverTime (items : list NotificationsOverTimeItem.t)
| Error (err : string).

Definition summary_next (d : SummaryResponse.t) : Action unit :=
  assign (set_summary (Some d));;
  assign (set_loadingSummary false);;
  assign (set_pieData [SummaryResponse.active_accounts d;
                       SummaryResponse.inactive_accounts d]).

Definition summary_error (err : string) : Action unit :=
  console_error "Error loading summary" err;;
  assign (set_summaryError (Some "Could not load summary data"));;
  assign (set_loadingSummary false).

Definition records_next (resp : PaginatedRecordsResponse.t) : Action unit :=
  assign (set_records (PaginatedRecordsResponse.items resp));;
  assign (set_totalPages (PaginatedRecordsResponse.total_pages resp));;
  assign (set_recordsLoading false);;
  updateTopAccountsChart.

Definition records_error (err : string) : Action unit :=
  console_error "Error loading records" err;;
  assign (set_recordsError (Some "Could not load account records"));;
  assign (set_recordsLoading false).

Definition health_next (items : list HealthByStatusItem.t) : Action unit :=
  assign (set_healthBarLabels (HealthByStatusItem.status <$> items));;
  assign (set_healthBarDatasets
            [{| data := HealthByStatusItem.account_count <$> items;
                label := "Accounts" |}]).

Definition health_error (err : string) : Action unit :=
  console_error "Error loading health-by-status" err.

Definition notifications_next (items : list NotificationsOverTimeItem.t)
    : Action unit :=
  assign (set_notificationsLineLabels (NotificationsOverTimeItem.date <$> items));;
  assign (set_notificationsLineDatasets
            [{| data :=
                  NotificationsOverTimeItem.total_notifications_billed <$> items;
                label := "Notifications Billed" |}]).

Definition notifications_error (err : string) : Action unit :=
  console_error "Error loading notifications-over-time" err.

(** The [error] closure of each observer. *)
Definition on_error (k : Subscriber) (err : string) : Action unit :=
  match k with
  | SummarySubscriber => summary_error err
  | RecordsSubscriber => records_error err
  | HealthByStatusSubscriber => health_error err
  | NotificationsOverTimeSubscriber => notifications_error err
  end.

(** The closure an observer runs for a notification; a body of another
    endpoint's type never reaches it ([Observable<T>] is typed). *)
Definition observe (k : Subscriber) (n : Notification) : option (Action unit) :=
  match n, k with
  | Error err, _ => Some (on_error k err)
  | NextSummary d, SummarySubscriber => Some (summary_next d)
  | NextRecords resp, RecordsSubscriber => Some (records_next resp)
  | NextHealthByStatus items, HealthByStatusSubscriber =>
      Some (health_next items)
  | NextNotificationsOverTime items, NotificationsOverTimeSubscriber =>
      Some (notifications_next items)
  | _, _ => None
  end.

(** *** Runs *)

(** The methods of the class; the framework calls [ngOnInit], the view
    calls the others. *)
Inductive Op : Set :=
| OpNgOnInit
| OpLoadSummary
| OpLoadRecords
| OpApplyFilters
| OpClearFilters
| OpNextPage
| OpPrevPage
| OpLoadHealthByStatus
| OpLoadNotificationsOverTime
| OpUpdateTopAccountsChart.

Definition call (o : Op) : Action unit :=
  match o with
  | OpNgOnInit => ngOnInit
  | OpLoadSummary => loadSummary
  | OpLoadRecords => loadRecords
  | OpApplyFilters => applyFilters
  | OpClearFilters => clearFilters
  | OpNextPage => nextPage
  | OpPrevPage => prevPage
  | OpLoadHealthByStatus => loadHealthByStatus
  | OpLoadNotificationsOverTime => loadNotificationsOverTime
  | OpUpdateTopAccountsChart => updateTopAccountsChart
  end.

(** One turn of the event loop: a method call, or the notification of the
    subscription [id], in whatever order the responses come back. *)
Inductive Event : Type :=
| Call (o : Op)
| Notify (id : nat) (n : Notification).

(** A notification is only possible for a subscription in flight. *)
Definition notify (id : nat) (n : Notification) (w : World) : option World :=
  k ← inflight w !! id;
  h ← observe k n;
  Some (exec h (complete id w)).

Definition step (w : World) (e : Event) : option World :=
  match e with
  | Call o => Some (exec (call o) w)
  | Notify id n => notify id n w
  end.

Fixpoint run (evs : list Event) (w : World) : option World :=
  match evs with
  | [] => Some w
  | e :: evs' => w' ← step w e; run evs' w'
  end.

End AppComponent.

(** ** Arrays as objects

    [Array.prototype.sort] sorts the array it is called on, in place, and
    returns that same array; the spread [[...a]] and [slice] allocate a new
    one.  To tell the two apart, the arrays of [AccountInsights] are kept in
    a store, addressed by their position in it, and [this.records] is a
    reference into the store.  The label and number arrays built by [map]
    are fresh and are handed straight to the chart fields. *)

Module ArrayHeap.

Abbreviation Ref := nat.
Abbreviation Heap := (list (list AccountInsights.t)).

(** [[...a]]: a new array with the elements of [a]. *)
Definition spread (a : Ref) (h : Heap) : option (Ref * Heap) :=
  l ← h !! a; Some (length h, h ++ [l]).

(** [a.sort(cmp)]: overwrites [a] and returns it. *)
Definition sort (cmp : AccountInsights.t → AccountInsights.t → Z)
    (a : Ref) (h : Heap) : option (Ref * Heap) :=
  l ← h !! a; Some (a, <[a := Js.sort cmp l]> h).

(** [a.slice(b, e)]: a new array. *)
Definition slice (b e : nat) (a : Ref) (h : Heap) : option (Ref * Heap) :=
  l ← h !! a; Some (length h, h ++ [Js.slice b e l]).

(** [a.map(f)], the result taken as a value. *)
Definition map {B} (f : AccountInsights.t → B) (a : Ref) (h : Heap)
    : option (list B) :=
  l ← h !! a; Some (f <$> (l : list AccountInsights.t)).

(** [updateTopAccountsChart] with [this.records] the array at [recs]:
    the values assigned to [topAccountsBarLabels] and
    [topAccountsBarDatasets], and the store afterwards. *)
Definition updateTopAccountsChart (recs : Ref) (h : Heap)
    : option (list string * list AppComponent.Dataset * Heap) :=
  '(copy, h1) ← spread recs h;
  '(sorted, h2) ← sort AppComponent.by_notifications_billed_desc copy h1;
  '(sorted, h3) ← slice 0 5 sorted h2;
  labels ← map AccountInsights.account_label sorted h3;
  billed ← map AccountInsights.notifications_billed sorted h3;
  Some (labels,
        [{| AppComponent.data := billed;
            AppComponent.label := "Notifications Billed" |}],
        h3).

End ArrayHeap.

(** * Properties *)

(** ** Tactics and the vocabulary of the statements *)

(** Unfolds a method body down to record operations, reading the parts
    of the world through the updates made so far. *)
Ltac run_action :=
  cbv [AppComponent.exec AppComponent.call AppComponent.on_error
       AppComponent.ngOnInit AppComponent.loadSummary AppComponent.loadRecords
       AppComponent.applyFilters AppComponent.clearFilters
       AppComponent.nextPage AppComponent.prevPage
       AppComponent.loadHealthByStatus AppComponent.loadNotificationsOverTime
       AppComponent.updateTopAccountsChart
       AppComponent.summary_next AppComponent.summary_error
       AppComponent.records_next AppComponent.records_error
       AppComponent.health_next AppComponent.health_error
       AppComponent.notifications_next AppComponent.notifications_error
       AppComponent.assign AppComponent.read AppComponent.subscribe
       AppComponent.appService AppService.request
       AppComponent.console_error AppComponent.complete
       AppComponent.Action_bind AppComponent.Action_ret mbind mret
       fst snd AppComponent.this AppComponent.called AppComponent.sent
       AppComponent.inflight AppComponent.console];
  repeat match goal with
         | w : AppComponent.World |- _ =>
             progress (fold (AppComponent.this w);
                       fold (AppComponent.called w);
                       fold (AppComponent.sent w);
                       fold (AppComponent.inflight w);
                       fold (AppComponent.console w))
         end.

(** Splits on the guards of [nextPage] and [prevPage]. *)
Ltac split_guards :=
  repeat first
    [ case_bool_decide
    | match goal with
      | |- context [if Js.ltb ?a ?b then _ else _] =>
          destruct (Js.ltb a b) eqn:?
      end ].

(** Reads fields through the assignments made so far. *)
Ltac read_fields :=
  cbn [AppComponent.set_summary AppComponent.set_loadingSummary
       AppComponent.set_summaryError AppComponent.set_records
       AppComponent.set_recordsLoading AppComponent.set_recordsError
       AppComponent.set_page AppComponent.set_totalPages
       AppComponent.set_filterStatus AppComponent.set_filterMinHealth
       AppComponent.set_filterSearch AppComponent.set_pieData
       AppComponent.set_healthBarLabels
       AppComponent.set_healthBarDatasets
       AppComponent.set_notificationsLineLabels
       AppComponent.set_notificationsLineDatasets
       AppComponent.set_topAccountsBarLabels
       AppComponent.set_topAccountsBarDatasets AppComponent.title
       AppComponent.summary AppComponent.loadingSummary
       AppComponent.summaryError AppComponent.records
       AppComponent.recordsLoading AppComponent.recordsError
       AppComponent.page AppComponent.pageSize AppComponent.totalPages
       AppComponent.filterStatus AppComponent.filterMinHealth
       AppComponent.filterSearch AppComponent.pieLabels
       AppComponent.pieData AppComponent.healthBarLabels
       AppComponent.healthBarDatasets AppComponent.healthBarOptions
       AppComponent.notificationsLineLabels
       AppComponent.notificationsLineDatasets
       AppComponent.notificationsLineOptions
       AppComponent.topAccountsBarLabels
       AppComponent.topAccountsBarDatasets
       AppComponent.topAccountsBarOptions].

(** A small catalogue of accounts for the examples. *)
Definition account (name : string) (billed : Z) : AccountInsights.t :=
  {| AccountInsights.account_label := name;
     AccountInsights.subscription_status := "active";
     AccountInsights.health_score := 80;
     AccountInsights.automation_count := 1;
     AccountInsights.total_records := 10;
     AccountInsights.messages_processed := 100;
     AccountInsights.notifications_billed := billed;
     AccountInsights.churn_risk := "low" |}.

Definition page_of (p total : Z) (rs : list AccountInsights.t)
    : PaginatedRecordsResponse.t :=
  {| PaginatedRecordsResponse.page := p;
     PaginatedRecordsResponse.page_size := 5;
     PaginatedRecordsResponse.total_items := Z.of_nat (length rs);
     PaginatedRecordsResponse.total_pages := Js.of_Z total;
     PaginatedRecordsResponse.items := rs |}.

(** [a] is billed at least as much as [b]. *)
Definition billed_desc (a b : AccountInsights.t) : Prop :=
  (AccountInsights.notifications_billed b
   ≤ AccountInsights.notifications_billed a)%Z.

(** The pagination invariant of the view, [1 <= page <= totalPages]. *)
Definition page_in_bounds (c : AppComponent.t) : Prop :=
  (1 ≤ AppComponent.page c)%Z
  ∧ Js.leb (Js.of_Z (AppComponent.page c)) (AppComponent.totalPages c) = true.

(** [page < totalPages], the guard of [nextPage]. *)
Definition before_last_page (c : AppComponent.t) : bool :=
  Js.ltb (Js.of_Z (AppComponent.page c)) (AppComponent.totalPages c).

(** The view shows an error: one of the two error strings of the
    component is set. *)
Definition error_string_set (c : AppComponent.t) : Prop :=
  is_Some (AppComponent.summaryError c) ∨ is_Some (AppComponent.recordsError c).

(** The notification carries a page of records. *)
Definition is_records_response (e : AppComponent.Event) : bool :=
  match e with
  | AppComponent.Notify _ (AppComponent.NextRecords _) => true
  | _ => false
  end.

(** The query parameter a [string | null | undefined] argument ends up as. *)
Definition string_param (v : Js.Maybe string) : option Http.ParamValue :=
  match v with
  | Js.val s => if decide (s = "") then None else Some (Http.PStr s)
  | _ => None
  end.

(** The query parameter a [number | null | undefined] argument ends up as. *)
Definition number_param (v : Js.Maybe Z) : option Http.ParamValue :=
  match v with
  | Js.val n => Some (Http.PNum n)
  | _ => None
  end.

(** A search that matches nothing: no items and no pages. *)
Definition no_match : PaginatedRecordsResponse.t := page_of 1 0 [].

(** The component is created, loads its data and the records request (the
    second request of [ngOnInit]) comes back with [no_match]. *)
Definition empty_result_run : list AppComponent.Event :=
  [AppComponent.Call AppComponent.OpNgOnInit;
   AppComponent.Notify 1 (AppComponent.NextRecords no_match)].

(** A response that counts two and a half pages. *)
Definition half_page : PaginatedRecordsResponse.t :=
  {| PaginatedRecordsResponse.page := 1;
     PaginatedRecordsResponse.page_size := 5;
     PaginatedRecordsResponse.total_items := 12;
     PaginatedRecordsResponse.total_pages := Js.finite (5 # 2);
     PaginatedRecordsResponse.items := [] |}.

(** The records request of [ngOnInit] comes back with [half_page] and the
    user goes to page 2. *)
Definition half_page_run : list AppComponent.Event :=
  [AppComponent.Call AppComponent.OpNgOnInit;
   AppComponent.Notify 1 (AppComponent.NextRecords half_page);
   AppComponent.Call AppComponent.OpNextPage].

(** The top-accounts chart shows the first [min(5, n)] of the [n] loaded
    records taken in descending order of [notifications_billed], records
    billed the same in the order they were loaded: labels and billed
    numbers, in that order. *)
Definition shows_top_five (c : AppComponent.t) : Prop :=
  let rs := AppComponent.records c in
  let sorted := Js.sort AppComponent.by_notifications_billed_desc rs in
  let top := take (5 `min` length rs) sorted in
  sorted ≡ₚ rs
  ∧ StronglySorted billed_desc sorted
  ∧ (∀ n, filter (λ r, AccountInsights.notifications_billed r = n) sorted
          = filter (λ r, AccountInsights.notifications_billed r = n) rs)
  ∧ AppComponent.topAccountsBarLabels c = AccountInsights.account_label <$> top
  ∧ AppComponent.topAccountsBarDatasets c
    = [{| AppComponent.data := AccountInsights.notifications_billed <$> top;
          AppComponent.label := "Notifications Billed" |}].

(** Seven accounts, two of them billed the same. *)
Definition seven_accounts : list AccountInsights.t :=
  [account "ada" 40; account "bob" 75; account "cy" 10; account "dee" 75;
   account "eve" 90; account "flo" 5; account "gus" 60].

(** The health-by-status chart is loaded on its own and the request fails. *)
Definition health_failure_run : list AppComponent.Event :=
  [AppComponent.Call AppComponent.OpLoadHealthByStatus;
   AppComponent.Notify 0 (AppComponent.Error "Http failure response")].

(** The request is a read. *)
Definition read_only (r : Http.Request) : Prop := Http.method r = Http.GET.

(** Two pages of records that differ. *)
Definition first_page : PaginatedRecordsResponse.t :=
  page_of 1 3 [account "ada" 40].
Definition filtered_page : PaginatedRecordsResponse.t :=
  page_of 1 1 [account "bob" 75].

(** [ngOnInit] issues the records request 1, [applyFilters] the records
    request 4. *)
Definition two_records_requests : list AppComponent.Event :=
  [AppComponent.Call AppComponent.OpNgOnInit;
   AppComponent.Call AppComponent.OpApplyFilters].

(** The response to the later request arrives first, the response to the
    earlier request last. *)
Definition overtaken_run : list AppComponent.Event :=
  two_records_requests ++
  [AppComponent.Notify 4 (AppComponent.NextRecords filtered_page);
   AppComponent.Notify 1 (AppComponent.NextRecords first_page)].

(** A component on page 2 of 3 with a status filter typed in. *)
Definition middle_page : AppComponent.World :=
  AppComponent.world_of
    (AppComponent.set_filterStatus "active"
       (AppComponent.set_page 2
          (AppComponent.set_totalPages (Js.of_Z 3) AppComponent.initial))).

(** The request [loadRecords] builds from the fields of a component. *)
Definition records_request (c : AppComponent.t) : Http.Request :=
  AppService.getRecords (AppComponent.page c) (AppComponent.pageSize c)
    (Js.or_undefined (AppComponent.filterStatus c))
    (Js.nullish_to_undefined (AppComponent.filterMinHealth c))
    (Js.or_undefined (AppComponent.filterSearch c)).

(** The URL each observer's request is sent to. *)
Definition endpoint (k : AppComponent.Subscriber) : string :=
  match k with
  | AppComponent.SummarySubscriber => "http://localhost:8000/summary"
  | AppComponent.RecordsSubscriber => "http://localhost:8000/records"
  | AppComponent.HealthByStatusSubscriber =>
      "http://localhost:8000/analytics/health-by-status"
  | AppComponent.NotificationsOverTimeSubscriber =>
      "http://localhost:8000/analytics/notifications-over-time"
  end.

(** Every subscription in flight waits for a request that was issued, and
    for one to the endpoint of its observer. *)
Definition inflight_wf (w : AppComponent.World) : Prop :=
  ∀ id k, AppComponent.inflight w !! id = Some k →
          ∃ r, AppComponent.sent w !! id = Some r ∧ Http.url r = endpoint k.

(** The data of a chart with one dataset has one number per label. *)
Definition aligned (labels : list string) (ds : list AppComponent.Dataset)
    : Prop :=
  ∃ d, ds = [d] ∧ length (AppComponent.data d) = length labels.

(** All four charts of the view have one number per label. *)
Definition charts_aligned (c : AppComponent.t) : Prop :=
  length (AppComponent.pieData c) = length (AppComponent.pieLabels c)
  ∧ aligned (AppComponent.healthBarLabels c) (AppComponent.healthBarDatasets c)
  ∧ aligned (AppComponent.notificationsLineLabels c)
      (AppComponent.notificationsLineDatasets c)
  ∧ aligned (AppComponent.topAccountsBarLabels c)
      (AppComponent.topAccountsBarDatasets c).

(** The request asks for a page from 1 up, if it asks for a page. *)
Definition asks_page_from_1 (r : Http.Request) : Prop :=
  ∀ v, Http.get "page" (Http.params r) = Some v →
       ∃ n, v = Http.PNum n ∧ (1 ≤ n)%Z.

(** The request asks for pages of [size] records, if it is a records
    request. *)
Definition asks_page_size (size : Z) (r : Http.Request) : Prop :=
  Http.url r = "http://localhost:8000/records" →
  Http.get "page_size" (Http.params r) = Some (Http.PNum size).

(** The parts of the component no method assigns. *)
Definition constants (c : AppComponent.t)
    : string * Z * list string
      * (AppComponent.ChartOptions * AppComponent.ChartOptions
         * AppComponent.ChartOptions) :=
  (AppComponent.title c, AppComponent.pageSize c, AppComponent.pieLabels c,
   (AppComponent.healthBarOptions c, AppComponent.notificationsLineOptions c,
    AppComponent.topAccountsBarOptions c)).

(** The page that [n] presses of "next" lead to from page [p] when the
    page count is [t]: a press moves forward as long as [page < t] holds,
    so for a finite [t] up to [t] rounded up. *)
Definition page_after_nexts (t : Js.Number) (p : Z) (n : nat) : Z :=
  match t with
  | Js.finite q => (p `max` ((p + Z.of_nat n) `min` Qceiling q))%Z
  | Js.Infinity => (p + Z.of_nat n)%Z
  | Js.NaN | Js.NegInfinity => p
  end.


Example sort_example :
  AccountInsights.account_label <$>
    Js.sort AppComponent.by_notifications_billed_desc
      [account "a" 3; account "b" 7; account "c" 3; account "d" 9]
  = ["d"; "b"; "a"; "c"].
Proof. reflexivity. Qed.

Example nextPage_example :
  AppComponent.page
    (AppComponent.this
       (AppComponent.exec AppComponent.nextPage
          (AppComponent.world_of
             (AppComponent.set_totalPages (Js.of_Z 3) AppComponent.initial))))
  = 2%Z.
Proof. reflexivity. Qed.

(** ** [Array.prototype.sort] *)

Section SortFacts.
Context {A : Type} (cmp : A → A → Z).

(** The order a comparator asks for: [x] may stand before [y]. *)
Local Abbreviation before := (λ x y : A, (cmp x y ≤ 0)%Z).

Lemma insert_sorted_perm x l : Js.insert_sorted cmp x l ≡ₚ x :: l.
Proof.
  induction l as [|y l IH]; cbn; [done|].
  destruct (cmp x y <=? 0)%Z; [done|].
  rewrite IH. apply Permutation_swap.
Qed.

Lemma sort_perm l : Js.sort cmp l ≡ₚ l.
Proof.
  induction l as [|x l IH]; cbn; [done|].
  by rewrite insert_sorted_perm, IH.
Qed.

Lemma sort_length l : length (Js.sort cmp l) = length l.
Proof. by rewrite sort_perm. Qed.

(** A comparator that never answers "after" both ways. *)
Hypothesis cmp_total : ∀ x y, (0 < cmp x y)%Z → (cmp y x ≤ 0)%Z.

Lemma insert_sorted_hd x y l :
  before y x → HdRel before y l → HdRel before y (Js.insert_sorted cmp x l).
Proof.
  intros Hyx Hhd. destruct l as [|z l]; cbn; [by constructor|].
  destruct (cmp x z <=? 0)%Z; constructor; [done|].
  by inversion Hhd.
Qed.

Lemma insert_sorted_sorted x l :
  Sorted before l → Sorted before (Js.insert_sorted cmp x l).
Proof.
  induction 1 as [|y l Hl IH Hhd]; cbn; [by repeat constructor|].
  destruct (Z.leb_spec (cmp x y) 0) as [Hle|Hgt].
  - constructor; [by constructor|by constructor].
  - constructor; [done|]. apply insert_sorted_hd; [|done].
    by apply cmp_total.
Qed.

Lemma sort_sorted l : Sorted before (Js.sort cmp l).
Proof.
  induction l as [|x l IH]; cbn; [constructor|].
  by apply insert_sorted_sorted.
Qed.

End SortFacts.

Lemma Sorted_weaken {A} (R1 R2 : A → A → Prop) l :
  (∀ x y, R1 x y → R2 x y) → Sorted R1 l → Sorted R2 l.
Proof.
  intros HR. induction 1 as [|x l Hl IH Hhd]; constructor; [done|].
  destruct Hhd; constructor; auto.
Qed.

(** The comparator of the chart is a consistent one, and its order is
    "billed at least as much". *)
Lemma by_notifications_billed_desc_total a b :
  (0 < AppComponent.by_notifications_billed_desc a b)%Z →
  (AppComponent.by_notifications_billed_desc b a ≤ 0)%Z.
Proof. unfold AppComponent.by_notifications_billed_desc. lia. Qed.

#[local] Instance billed_desc_trans : Transitive billed_desc.
Proof. intros a b c. unfold billed_desc. lia. Qed.

Lemma sort_billed_desc rs :
  StronglySorted billed_desc
    (Js.sort AppComponent.by_notifications_billed_desc rs).
Proof.
  apply Sorted_StronglySorted; [apply _|].
  eapply Sorted_weaken;
    [|apply sort_sorted, by_notifications_billed_desc_total].
  intros a b. unfold AppComponent.by_notifications_billed_desc, billed_desc.
  lia.
Qed.

(** The sort is stable: accounts billed the same keep their order. *)
Lemma sort_stable (n : Z) rs :
  filter (λ r, AccountInsights.notifications_billed r = n)
    (Js.sort AppComponent.by_notifications_billed_desc rs)
  = filter (λ r, AccountInsights.notifications_billed r = n) rs.
Proof.
  induction rs as [|x rs IH]; cbn [Js.sort]; [done|].
  rewrite filter_cons, <- IH.
  generalize (Js.sort AppComponent.by_notifications_billed_desc rs).
  intros l. induction l as [|y l IHl]; cbn [Js.insert_sorted]; [done|].
  unfold AppComponent.by_notifications_billed_desc at 1.
  destruct (Z.leb_spec
              (AccountInsights.notifications_billed y
               - AccountInsights.notifications_billed x) 0) as [Hle|Hgt].
  - by rewrite filter_cons.
  - rewrite !(filter_cons _ y), IHl.
    repeat case_decide; try done; lia.
Qed.

Lemma slice_0 {A} (n : nat) (l : list A) :
  Js.slice 0 n l = take (n `min` length l) l.
Proof.
  unfold Js.slice. rewrite Nat.sub_0_r, drop_0.
  destruct (decide (n ≤ length l)) as [Hle|Hgt].
  - by rewrite Nat.min_l.
  - rewrite Nat.min_r by lia. by rewrite !take_ge by lia.
Qed.

(** The billed numbers of the records in descending order do not depend
    on how accounts billed the same are arranged. *)
Lemma billed_of_descending_order (l1 l2 : list AccountInsights.t) :
  l1 ≡ₚ l2 →
  StronglySorted billed_desc l1 →
  StronglySorted billed_desc l2 →
  AccountInsights.notifications_billed <$> l1
  = AccountInsights.notifications_billed <$> l2.
Proof.
  intros Hperm H1 H2.
  apply (StronglySorted_unique_strong (λ x y : Z, (y ≤ x)%Z)).
  - intros x y _ _ Hxy Hyx. lia.
  - by apply (StronglySorted_fmap _ billed_desc).
  - by apply (StronglySorted_fmap _ billed_desc).
  - by rewrite Hperm.
Qed.

(** ** The query of [getRecords] *)

Lemma truthy_string_spec s : Js.truthy_string s = true ↔ s ≠ "".
Proof. destruct s; cbn; split; congruence. Qed.

Lemma or_undefined_spec s :
  Js.or_undefined s = if decide (s = "") then Js.undefined else Js.val s.
Proof. by destruct s. Qed.

(** C1.  The query of [getRecords(page, pageSize, status, minHealth,
    search)] has [page] and [page_size] set to the given values; it has
    [status] exactly when [status] is a non-empty string, [min_health]
    exactly when [minHealth] is neither [null] nor [undefined], and [search]
    exactly when [search] is a non-empty string, each with the value of its
    argument.  [loadRecords] makes exactly one call of the service and
    issues exactly one request: it calls [getRecords] with the component's
    current [page], [pageSize] and filter fields as arguments, an empty
    string filter (and an absent minimum health) being passed as
    [undefined], and issues the request that call builds. *)
Theorem getRecords_query_parameters :
  (∀ page pageSize status minHealth search,
     let q := Http.params
                (AppService.getRecords page pageSize status minHealth search) in
     Http.get "page" q = Some (Http.PNum page)
     ∧ Http.get "page_size" q = Some (Http.PNum pageSize)
     ∧ (Http.has "status" q = true ↔ ∃ s, status = Js.val s ∧ s ≠ "")
     ∧ Http.get "status" q = string_param status
     ∧ (Http.has "min_health" q = true
        ↔ minHealth ≠ Js.null ∧ minHealth ≠ Js.undefined)
     ∧ Http.get "min_health" q = number_param minHealth
     ∧ (Http.has "search" q = true ↔ ∃ s, search = Js.val s ∧ s ≠ "")
     ∧ Http.get "search" q = string_param search)
  ∧ (∀ w,
       let c := AppComponent.this w in
       AppComponent.sent (AppComponent.exec AppComponent.loadRecords w)
       = AppComponent.sent w ++
           [AppService.getRecords (AppComponent.page c) (AppComponent.pageSize c)
              (if decide (AppComponent.filterStatus c = "")
               then Js.undefined else Js.val (AppComponent.filterStatus c))
              (match AppComponent.filterMinHealth c with
               | Js.val n => Js.val n
               | _ => Js.undefined
               end)
              (if decide (AppComponent.filterSearch c = "")
               then Js.undefined else Js.val (AppComponent.filterSearch c))])
  ∧ (∀ w,
       let c := AppComponent.this w in
       AppComponent.called (AppComponent.exec AppComponent.loadRecords w)
       = AppComponent.called w ++
           [AppService.GetRecords (AppComponent.page c) (AppComponent.pageSize c)
              (if decide (AppComponent.filterStatus c = "")
               then Js.undefined else Js.val (AppComponent.filterStatus c))
              (match AppComponent.filterMinHealth c with
               | Js.val n => Js.val n
               | _ => Js.undefined
               end)
              (if decide (AppComponent.filterSearch c = "")
               then Js.undefined else Js.val (AppComponent.filterSearch c))]).
Proof.
  split; [|split].
  - intros page pageSize status minHealth search.
    destruct status as [| |[|a1 s1]], minHealth as [| |n],
      search as [| |[|a2 s2]]; cbn;
      repeat split; try done;
      try (intros (s & [= ] & Hs); congruence);
      try (intros _; eexists; split; [reflexivity|discriminate]);
      intros [Hnull Hundef]; congruence.
  - intros w. run_action. read_fields. rewrite <- !or_undefined_spec.
    by destruct (AppComponent.filterMinHealth (AppComponent.this w)).
  - intros w. run_action. read_fields. rewrite <- !or_undefined_spec.
    by destruct (AppComponent.filterMinHealth (AppComponent.this w)).
Qed.

Example loadRecords_arguments_example :
  AppComponent.called
    (AppComponent.exec AppComponent.loadRecords
       (AppComponent.world_of
          (AppComponent.set_filterMinHealth Js.null
             (AppComponent.set_filterSearch "acme" AppComponent.initial))))
  = [AppService.GetRecords 1 5 Js.undefined Js.undefined (Js.val "acme")].
Proof. reflexivity. Qed.

(** ** Comparisons of numbers *)

Lemma ltb_of_Z_finite p q :
  Js.ltb (Js.of_Z p) (Js.finite q) = true ↔ (inject_Z p < q)%Q.
Proof.
  cbn. rewrite negb_true_iff, <- not_true_iff_false, Qle_bool_iff.
  split; [apply Qnot_le_lt|apply Qlt_not_le].
Qed.

Lemma leb_of_Z_finite p q :
  Js.leb (Js.of_Z p) (Js.finite q) = true ↔ (inject_Z p <= q)%Q.
Proof. apply Qle_bool_iff. Qed.

Lemma ltb_of_Z p t : Js.ltb (Js.of_Z p) (Js.of_Z t) = true ↔ (p < t)%Z.
Proof. unfold Js.of_Z at 2. by rewrite ltb_of_Z_finite, Zlt_Qlt. Qed.

Lemma leb_of_Z p t : Js.leb (Js.of_Z p) (Js.of_Z t) = true ↔ (p ≤ t)%Z.
Proof. unfold Js.of_Z at 2. by rewrite leb_of_Z_finite, Zle_Qle. Qed.

(** A smaller integer is below whatever the larger one is below. *)
Lemma leb_of_Z_mono p p' t :
  (p' ≤ p)%Z → Js.leb (Js.of_Z p) t = true → Js.leb (Js.of_Z p') t = true.
Proof.
  intros Hp. destruct t as [| | |q]; try done.
  rewrite !leb_of_Z_finite. intros Hq.
  eapply Qle_trans; [|done]. by rewrite <- Zle_Qle.
Qed.

Lemma ltb_leb p t :
  Js.ltb (Js.of_Z p) t = true → Js.leb (Js.of_Z p) t = true.
Proof.
  destruct t as [| | |q]; try done.
  rewrite ltb_of_Z_finite, leb_of_Z_finite. apply Qlt_le_weak.
Qed.

Lemma leb_pred_ltb p t :
  Js.leb (Js.of_Z p) t = true → Js.ltb (Js.of_Z (p - 1)) t = true.
Proof.
  destruct t as [| | |q]; try done.
  rewrite ltb_of_Z_finite, leb_of_Z_finite. intros Hq.
  eapply Qlt_le_trans; [|done]. rewrite <- Zlt_Qlt. lia.
Qed.

(** An integer is below a finite number exactly when it is below the
    number rounded up. *)
Lemma ltb_ceiling p q :
  Js.ltb (Js.of_Z p) (Js.finite q) = true ↔ (p < Qceiling q)%Z.
Proof.
  rewrite ltb_of_Z_finite. split.
  - intros Hq. rewrite Zlt_Qlt.
    eapply Qlt_le_trans; [done|apply Qle_ceiling].
  - intros Hp. eapply Qle_lt_trans; [|apply Qceiling_lt].
    rewrite <- Zle_Qle. lia.
Qed.

(** ** Pagination bounds *)

Lemma page_in_bounds_frame (c c' : AppComponent.t) :
  AppComponent.page c' = AppComponent.page c →
  AppComponent.totalPages c' = AppComponent.totalPages c →
  page_in_bounds c → page_in_bounds c'.
Proof. unfold page_in_bounds. by intros -> ->. Qed.

Lemma call_page_in_bounds o w :
  o ≠ AppComponent.OpNextPage →
  page_in_bounds (AppComponent.this w) →
  page_in_bounds (AppComponent.this (AppComponent.exec (AppComponent.call o) w)).
Proof.
  unfold page_in_bounds. intros Ho [Hpage Hle].
  destruct o; try done; run_action; split_guards; run_action; read_fields;
    (split; [lia|]); first [done|eapply leb_of_Z_mono; [|exact Hle]; lia].
Qed.

Lemma nextPage_page_in_bounds w :
  page_in_bounds (AppComponent.this w) →
  page_in_bounds (AppComponent.this (AppComponent.exec AppComponent.nextPage w))
  ↔ before_last_page (AppComponent.this w) = false
    ∨ Js.leb (Js.of_Z (AppComponent.page (AppComponent.this w) + 1))
        (AppComponent.totalPages (AppComponent.this w)) = true.
Proof.
  unfold page_in_bounds, before_last_page. intros [Hpage Hle]. run_action.
  destruct (Js.ltb _ _) eqn:Hlt; run_action; read_fields.
  - split; [intros [_ Hle']; by right|].
    intros [?|Hle']; [done|]. split; [lia|done].
  - split; [by left|done].
Qed.

(** The claim of C2 fails for the success handler of [loadRecords]: from
    the initial state, where the invariant holds, a response with
    [total_pages = 0] leaves [page = 1] above [totalPages = 0].  It also
    fails for [nextPage] once a response has brought a page count that is
    not whole: on page 2 of 2.5 the invariant holds, and [nextPage] goes to
    page 3. *)
Lemma page_bounds_broken_by_empty_result :
  page_in_bounds AppComponent.initial
  ∧ (∃ w', AppComponent.run empty_result_run
             (AppComponent.world_of AppComponent.initial) = Some w'
           ∧ AppComponent.page (AppComponent.this w') = 1%Z
           ∧ AppComponent.totalPages (AppComponent.this w') = Js.of_Z 0
           ∧ ¬ page_in_bounds (AppComponent.this w'))
  ∧ (∃ w1 w2, AppComponent.run half_page_run
                (AppComponent.world_of AppComponent.initial) = Some w1
              ∧ AppComponent.page (AppComponent.this w1) = 2%Z
              ∧ AppComponent.totalPages (AppComponent.this w1)
                = Js.finite (5 # 2)
              ∧ page_in_bounds (AppComponent.this w1)
              ∧ AppComponent.step w1 (AppComponent.Call AppComponent.OpNextPage)
                = Some w2
              ∧ AppComponent.page (AppComponent.this w2) = 3%Z
              ∧ ¬ page_in_bounds (AppComponent.this w2)).
Proof.
  split; [by vm_compute|]. split.
  - eexists. split; [by vm_compute|].
    repeat split. intros [_ Hle]. by vm_compute in Hle.
  - do 2 eexists. split; [by vm_compute|].
    split; [done|]. split; [done|]. split; [by vm_compute|].
    split; [by vm_compute|]. split; [done|].
    intros [_ Hle]. by vm_compute in Hle.
Qed.

(** C2, amended.  The invariant [1 <= page <= totalPages] holds initially.
    From a state where it holds, it is preserved by [prevPage],
    [applyFilters], [clearFilters] and every other method but [nextPage],
    by every error handler and by the success handlers of the other three
    requests.  [nextPage] preserves it exactly when [page] is not below
    [totalPages] (it then does nothing) or [page + 1 <= totalPages]; that is
    so whenever [totalPages] is a whole number.  The success handler of
    [loadRecords] preserves it exactly when the [total_pages] of the
    response is at least the component's current [page]. *)
Theorem page_bounds_preserved (w : AppComponent.World)
    (Hinv : page_in_bounds (AppComponent.this w)) :
  page_in_bounds AppComponent.initial
  ∧ (∀ o, o ≠ AppComponent.OpNextPage →
          page_in_bounds
            (AppComponent.this (AppComponent.exec (AppComponent.call o) w)))
  ∧ (page_in_bounds
       (AppComponent.this (AppComponent.exec AppComponent.nextPage w))
     ↔ before_last_page (AppComponent.this w) = false
       ∨ Js.leb (Js.of_Z (AppComponent.page (AppComponent.this w) + 1))
           (AppComponent.totalPages (AppComponent.this w)) = true)
  ∧ (∀ t, AppComponent.totalPages (AppComponent.this w) = Js.of_Z t →
          page_in_bounds
            (AppComponent.this (AppComponent.exec AppComponent.nextPage w)))
  ∧ (∀ k err, page_in_bounds
                (AppComponent.this
                   (AppComponent.exec (AppComponent.on_error k err) w)))
  ∧ (∀ d, page_in_bounds
            (AppComponent.this
               (AppComponent.exec (AppComponent.summary_next d) w)))
  ∧ (∀ items, page_in_bounds
                (AppComponent.this
                   (AppComponent.exec (AppComponent.health_next items) w)))
  ∧ (∀ items, page_in_bounds
                (AppComponent.this
                   (AppComponent.exec
                      (AppComponent.notifications_next items) w)))
  ∧ (∀ resp,
       page_in_bounds
         (AppComponent.this
            (AppComponent.exec (AppComponent.records_next resp) w))
       ↔ Js.leb (Js.of_Z (AppComponent.page (AppComponent.this w)))
           (PaginatedRecordsResponse.total_pages resp) = true).
Proof.
  split; [by vm_compute|].
  split; [intros o Ho; by apply call_page_in_bounds|].
  split; [by apply nextPage_page_in_bounds|].
  split.
  { intros t Ht. apply nextPage_page_in_bounds; [done|].
    unfold before_last_page. rewrite Ht.
    destruct (Js.ltb _ _) eqn:Hlt; [right|by left].
    apply ltb_of_Z in Hlt. apply leb_of_Z. lia. }
  split; [intros [] err; by apply (page_in_bounds_frame (AppComponent.this w))|].
  do 3 (split; [intros ?; by apply (page_in_bounds_frame (AppComponent.this w))|]).
  intros resp. destruct Hinv as [Hpage Hle].
  unfold page_in_bounds. run_action. read_fields.
  split; [by intros [_ ?]|done].
Qed.

Lemma page_bounds_preserved_witness :
  page_in_bounds
    (AppComponent.this
       (AppComponent.exec AppComponent.nextPage
          (AppComponent.world_of
             (AppComponent.set_totalPages (Js.of_Z 3) AppComponent.initial)))).
Proof.
  refine (proj1 (proj2 (proj2 (proj2 (page_bounds_preserved
            (AppComponent.world_of
               (AppComponent.set_totalPages (Js.of_Z 3) AppComponent.initial))
            _)))) 3%Z eq_refl).
  by vm_compute.
Defined.

(** ** The top-accounts chart *)

Lemma updateTopAccountsChart_shows_top_five w :
  shows_top_five
    (AppComponent.this (AppComponent.exec AppComponent.updateTopAccountsChart w)).
Proof.
  unfold shows_top_five. run_action. read_fields.
  split; [apply sort_perm|]. split; [apply sort_billed_desc|].
  split; [intros n; apply sort_stable|].
  unfold AppComponent.top_accounts.
  by rewrite slice_0, sort_length.
Qed.

Lemma notify_records_next id resp w w' :
  AppComponent.notify id (AppComponent.NextRecords resp) w = Some w' →
  w' = AppComponent.exec (AppComponent.records_next resp)
         (AppComponent.complete id w).
Proof.
  unfold AppComponent.notify.
  destruct (AppComponent.inflight w !! id) as [[]|]; cbn; congruence.
Qed.

Lemma records_next_shows_top_five resp w :
  shows_top_five
    (AppComponent.this
       (AppComponent.exec (AppComponent.records_next resp) w)).
Proof.
  change (AppComponent.exec (AppComponent.records_next resp) w)
    with (AppComponent.exec AppComponent.updateTopAccountsChart
            (AppComponent.exec
               (AppComponent.assign
                  (AppComponent.set_records
                     (PaginatedRecordsResponse.items resp));;
                AppComponent.assign
                  (AppComponent.set_totalPages
                     (PaginatedRecordsResponse.total_pages resp));;
                AppComponent.assign (AppComponent.set_recordsLoading false))
               w)).
  apply updateTopAccountsChart_shows_top_five.
Qed.

Example top_accounts_example :
  AccountInsights.account_label <$> AppComponent.top_accounts seven_accounts
  = ["eve"; "bob"; "dee"; "gus"; "ada"].
Proof. reflexivity. Qed.

(** C3.  Every run of [updateTopAccountsChart], and so every successful
    [loadRecords], leaves [topAccountsBarLabels] and the data of the
    top-accounts dataset equal to the [account_label] and
    [notifications_billed] of the first [min(5, records.length)] elements of
    the loaded records sorted in descending order of
    [notifications_billed]; after a successful [loadRecords] the loaded
    records are the items of the response.  The billed numbers shown are
    those of any descending arrangement of the records, however ties are
    ordered; among accounts billed the same the labels follow the order of
    the loaded page. *)
Theorem top_accounts_chart_is_top_five :
  (∀ w, shows_top_five
          (AppComponent.this
             (AppComponent.exec AppComponent.updateTopAccountsChart w)))
  ∧ (∀ id resp w w',
       AppComponent.notify id (AppComponent.NextRecords resp) w = Some w' →
       AppComponent.records (AppComponent.this w')
       = PaginatedRecordsResponse.items resp
       ∧ shows_top_five (AppComponent.this w'))
  ∧ (∀ c descending,
       shows_top_five c →
       descending ≡ₚ AppComponent.records c →
       StronglySorted billed_desc descending →
       AppComponent.topAccountsBarDatasets c
       = [{| AppComponent.data :=
               AccountInsights.notifications_billed
                 <$> take (5 `min` length (AppComponent.records c)) descending;
             AppComponent.label := "Notifications Billed" |}]).
Proof.
  split; [apply updateTopAccountsChart_shows_top_five|]. split.
  - intros id resp w w' ->%notify_records_next. split.
    + by run_action.
    + apply records_next_shows_top_five.
  - intros c descending (Hperm & Hsorted & _ & _ & ->) Hperm' Hsorted'.
    do 2 f_equal. rewrite !fmap_take. f_equal.
    apply billed_of_descending_order; [|done..]. by rewrite Hperm, Hperm'.
Qed.

Lemma top_accounts_chart_is_top_five_witness :
  ∃ w', AppComponent.topAccountsBarLabels (AppComponent.this w')
        = ["eve"; "bob"; "dee"; "gus"; "ada"]
        ∧ shows_top_five (AppComponent.this w').
Proof.
  eexists. split; [|
    refine (proj2 (proj1 (proj2 top_accounts_chart_is_top_five) 1
                     (page_of 1 2 seven_accounts)
                     (AppComponent.exec AppComponent.ngOnInit
                        (AppComponent.world_of AppComponent.initial)) _ _));
    vm_compute; reflexivity].
  vm_compute. reflexivity.
Defined.

(** ** [updateTopAccountsChart] and the array it reads *)

(** Sorting the array itself would reorder it. *)
Example sort_in_place_example :
  ArrayHeap.sort AppComponent.by_notifications_billed_desc 0
    [[account "a" 3; account "b" 7]]
  = Some (0, [[account "b" 7; account "a" 3]]).
Proof. reflexivity. Qed.

(** C10.  [updateTopAccountsChart] leaves the array behind [this.records]
    as it was, element for element and in the same order: the sort
    overwrites the copy made by the spread.  No other array that existed
    before the call changes either, and the values handed to the chart are
    those of the method on the component, which does not assign
    [records]. *)
Theorem updateTopAccountsChart_keeps_records :
  (∀ (h : list (list AccountInsights.t)) (recs : nat) rs,
     h !! recs = Some rs →
     ∃ labels datasets h',
       ArrayHeap.updateTopAccountsChart recs h = Some (labels, datasets, h')
       ∧ h' !! recs = Some rs
       ∧ (∀ a, a < length h → h' !! a = h !! a)
       ∧ ∀ w, AppComponent.records (AppComponent.this w) = rs →
              let c' := AppComponent.this
                          (AppComponent.exec
                             AppComponent.updateTopAccountsChart w) in
              AppComponent.topAccountsBarLabels c' = labels
              ∧ AppComponent.topAccountsBarDatasets c' = datasets)
  ∧ (∀ w, AppComponent.records
            (AppComponent.this
               (AppComponent.exec AppComponent.updateTopAccountsChart w))
          = AppComponent.records (AppComponent.this w)).
Proof.
  split; [|done].
  intros h recs rs Hrecs.
  assert (Hlt : recs < length h) by by eapply lookup_lt_Some.
  unfold ArrayHeap.updateTopAccountsChart, ArrayHeap.spread, ArrayHeap.sort,
    ArrayHeap.slice, ArrayHeap.map.
  rewrite Hrecs. cbn.
  rewrite list_lookup_middle by done. cbn.
  rewrite length_insert, length_app. cbn.
  assert (Hsorted :
            <[length h := Js.sort AppComponent.by_notifications_billed_desc rs]>
              (h ++ [rs])
            = h ++ [Js.sort AppComponent.by_notifications_billed_desc rs]).
  { rewrite insert_app_r_alt by lia. by rewrite Nat.sub_diag. }
  rewrite Hsorted, list_lookup_middle by done. cbn.
  rewrite !list_lookup_middle by (rewrite length_app; cbn; lia). cbn.
  do 3 eexists. split; [reflexivity|].
  assert (Hframe : ∀ a, a < length h →
            ((h ++ [Js.sort AppComponent.by_notifications_billed_desc rs])
             ++ [take 5 (drop 0
                   (Js.sort AppComponent.by_notifications_billed_desc rs))])
            !! a = h !! a).
  { intros a Ha.
    rewrite lookup_app_l by (rewrite length_app; cbn; lia).
    by rewrite lookup_app_l by done. }
  split; [by rewrite Hframe|]. split; [done|].
  intros w <-. by run_action.
Qed.

Lemma updateTopAccountsChart_keeps_records_witness :
  ∃ labels datasets h',
    ArrayHeap.updateTopAccountsChart 1 [[]; seven_accounts]
    = Some (labels, datasets, h')
    ∧ h' !! 1 = Some seven_accounts.
Proof.
  destruct (proj1 updateTopAccountsChart_keeps_records
              [[]; seven_accounts] 1 seven_accounts eq_refl)
    as (labels & datasets & h' & Hrun & Hkept & _).
  by exists labels, datasets, h'.
Defined.

(** ** Failures *)

(** The claim of C4 fails for the chart requests: when the
    health-by-status request fails, the component is exactly as it was
    created and neither error string is set. *)
Lemma health_failure_not_surfaced :
  ∃ w', AppComponent.run health_failure_run
          (AppComponent.world_of AppComponent.initial) = Some w'
        ∧ AppComponent.this w' = AppComponent.initial
        ∧ ¬ error_string_set (AppComponent.this w').
Proof.
  eexists. split; [by vm_compute|]. split; [done|].
  intros [[msg Hmsg]|[msg Hmsg]]; discriminate.
Qed.

(** C4, amended.  A failure of any of the four requests is caught: each
    observer has an [error] handler, and no handler issues a request, so
    nothing is retried.  For [loadSummary] and [loadRecords] the handler
    sets the loading flag to false and sets the error string.  For
    [loadHealthByStatus] and [loadNotificationsOverTime] the handler only
    writes a line to the console and the view state is unchanged. *)
Theorem request_failures_caught (w : AppComponent.World) (err : string) :
  (∀ k, AppComponent.observe k (AppComponent.Error err)
        = Some (AppComponent.on_error k err))
  ∧ (∀ id, AppComponent.notify id (AppComponent.Error err) w
           = (λ k, AppComponent.exec (AppComponent.on_error k err)
                     (AppComponent.complete id w))
             <$> AppComponent.inflight w !! id)
  ∧ (∀ k, let w' := AppComponent.exec (AppComponent.on_error k err) w in
          AppComponent.sent w' = AppComponent.sent w
          ∧ AppComponent.inflight w' = AppComponent.inflight w)
  ∧ (let c' := AppComponent.this
                 (AppComponent.exec
                    (AppComponent.on_error AppComponent.SummarySubscriber err) w) in
     AppComponent.loadingSummary c' = false
     ∧ AppComponent.summaryError c' = Some "Could not load summary data")
  ∧ (let c' := AppComponent.this
                 (AppComponent.exec
                    (AppComponent.on_error AppComponent.RecordsSubscriber err) w) in
     AppComponent.recordsLoading c' = false
     ∧ AppComponent.recordsError c' = Some "Could not load account records")
  ∧ (let w' := AppComponent.exec
                 (AppComponent.on_error AppComponent.HealthByStatusSubscriber err)
                 w in
     AppComponent.this w' = AppComponent.this w
     ∧ AppComponent.console w'
       = AppComponent.console w ++ [("Error loading health-by-status", err)])
  ∧ (let w' := AppComponent.exec
                 (AppComponent.on_error
                    AppComponent.NotificationsOverTimeSubscriber err) w in
     AppComponent.this w' = AppComponent.this w
     ∧ AppComponent.console w'
       = AppComponent.console w
         ++ [("Error loading notifications-over-time", err)]).
Proof.
  split; [by intros []|].
  split.
  { intros id. unfold AppComponent.notify.
    by destruct (AppComponent.inflight w !! id) as [[]|]. }
  split; [by intros []|].
  by repeat split.
Qed.

(** C9.  When a [loadRecords] request fails, the component differs from
    what it was before the request in [recordsError] and [recordsLoading]
    only: [records], [totalPages], [page] and the top-accounts chart are
    unchanged.  The error handler by itself, run in any state, assigns
    those two fields and nothing else. *)
Theorem records_failure_keeps_state (w : AppComponent.World) (err : string) :
  let failed c :=
    AppComponent.set_recordsLoading false
      (AppComponent.set_recordsError (Some "Could not load account records") c) in
  let w' := AppComponent.exec (AppComponent.records_error err)
              (AppComponent.exec AppComponent.loadRecords w) in
  AppComponent.this (AppComponent.exec (AppComponent.records_error err) w)
  = failed (AppComponent.this w)
  ∧ AppComponent.this w' = failed (AppComponent.this w)
  ∧ AppComponent.records (AppComponent.this w')
    = AppComponent.records (AppComponent.this w)
  ∧ AppComponent.totalPages (AppComponent.this w')
    = AppComponent.totalPages (AppComponent.this w)
  ∧ AppComponent.page (AppComponent.this w')
    = AppComponent.page (AppComponent.this w)
  ∧ AppComponent.topAccountsBarLabels (AppComponent.this w')
    = AppComponent.topAccountsBarLabels (AppComponent.this w)
  ∧ AppComponent.topAccountsBarDatasets (AppComponent.this w')
    = AppComponent.topAccountsBarDatasets (AppComponent.this w)
  ∧ AppComponent.topAccountsBarOptions (AppComponent.this w')
    = AppComponent.topAccountsBarOptions (AppComponent.this w).
Proof. by repeat split. Qed.

(** ** The HTTP surface *)

(** C5.  [getSummary], [getRecords], [getHealthByStatus] and
    [getNotificationsOverTime] request [/summary], [/records],
    [/analytics/health-by-status] and
    [/analytics/notifications-over-time] under the base URL of the service;
    the query of [/records] is made of [page], [page_size], [status],
    [min_health] and [search], the last three when their argument is
    given, and the other three requests carry no query. *)
Theorem service_paths :
  Http.url AppService.getSummary = AppService.baseUrl +:+ "/summary"
  ∧ Http.url AppService.getSummary = "http://localhost:8000/summary"
  ∧ Http.params AppService.getSummary = []
  ∧ (∀ page pageSize status minHealth search,
       let r := AppService.getRecords page pageSize status minHealth search in
       Http.url r = AppService.baseUrl +:+ "/records"
       ∧ Http.url r = "http://localhost:8000/records"
       ∧ Http.keys (Http.params r)
         = ["page"; "page_size"]
           ++ (if Js.truthy status then ["status"] else [])
           ++ (if Js.not_nullish minHealth then ["min_health"] else [])
           ++ (if Js.truthy search then ["search"] else []))
  ∧ Http.url AppService.getHealthByStatus
    = AppService.baseUrl +:+ "/analytics/health-by-status"
  ∧ Http.url AppService.getHealthByStatus
    = "http://localhost:8000/analytics/health-by-status"
  ∧ Http.params AppService.getHealthByStatus = []
  ∧ Http.url AppService.getNotificationsOverTime
    = AppService.baseUrl +:+ "/analytics/notifications-over-time"
  ∧ Http.url AppService.getNotificationsOverTime
    = "http://localhost:8000/analytics/notifications-over-time"
  ∧ Http.params AppService.getNotificationsOverTime = [].
Proof.
  repeat split.
  destruct status as [| |[|a1 s1]], minHealth as [| |n],
    search as [| |[|a2 s2]]; reflexivity.
Qed.

(** ** Runs of the component *)

Lemma run_app evs1 evs2 w :
  AppComponent.run (evs1 ++ evs2) w
  = AppComponent.run evs1 w ≫= AppComponent.run evs2.
Proof.
  revert w. induction evs1 as [|e evs1 IH]; intros w; cbn; [done|].
  destruct (AppComponent.step w e) as [w1|]; cbn; [apply IH|done].
Qed.

Lemma notify_inv id n w w' :
  AppComponent.notify id n w = Some w' →
  ∃ k h, AppComponent.inflight w !! id = Some k
         ∧ AppComponent.observe k n = Some h
         ∧ w' = AppComponent.exec h (AppComponent.complete id w).
Proof.
  unfold AppComponent.notify.
  destruct (AppComponent.inflight w !! id) as [k|]; cbn; [|done].
  destruct (AppComponent.observe k n) as [h|] eqn:Hobs; cbn; [|done].
  intros [= <-]. by exists k, h.
Qed.

Lemma call_read_only o w :
  Forall read_only (AppComponent.sent w) →
  Forall read_only (AppComponent.sent (AppComponent.exec (AppComponent.call o) w)).
Proof.
  intros Hw.
  destruct o; run_action; split_guards; run_action;
    rewrite ?Forall_app; repeat split; try done; by repeat constructor.
Qed.

Lemma observe_sent k n h w :
  AppComponent.observe k n = Some h →
  AppComponent.sent (AppComponent.exec h w) = AppComponent.sent w.
Proof. destruct n, k; cbn; intros [= <-]; done. Qed.

Lemma step_read_only e w w' :
  AppComponent.step w e = Some w' →
  Forall read_only (AppComponent.sent w) →
  Forall read_only (AppComponent.sent w').
Proof.
  destruct e as [o|id n]; cbn.
  - intros [= <-]. apply call_read_only.
  - intros (k & h & _ & Hobs & ->)%notify_inv.
    by rewrite (observe_sent _ _ _ _ Hobs).
Qed.

(** C6.  Each of the four service methods builds a GET request, and
    whatever the component is asked to do and whatever comes back, in any
    order, every request it has issued is a GET: none is a POST, PUT, PATCH
    or DELETE. *)
Theorem every_request_is_a_get :
  read_only AppService.getSummary
  ∧ (∀ page pageSize status minHealth search,
       read_only (AppService.getRecords page pageSize status minHealth search))
  ∧ read_only AppService.getHealthByStatus
  ∧ read_only AppService.getNotificationsOverTime
  ∧ (∀ evs w w',
       AppComponent.run evs w = Some w' →
       Forall read_only (AppComponent.sent w) →
       Forall (λ r, read_only r ∧ Http.is_write (Http.method r) = false)
         (AppComponent.sent w')).
Proof.
  repeat split.
  intros evs w w' Hrun Hw.
  eapply Forall_impl with (P := read_only);
    [|by intros r Hr; split; [|rewrite Hr]].
  revert w Hrun Hw. induction evs as [|e evs IH]; intros w; cbn.
  - by intros [= <-].
  - destruct (AppComponent.step w e) as [w1|] eqn:Hstep; cbn; [|done].
    intros Hrun Hw. eapply IH; [done|]. by eapply step_read_only.
Qed.

Lemma every_request_is_a_get_witness :
  ∃ w', AppComponent.run overtaken_run
          (AppComponent.world_of AppComponent.initial) = Some w'
        ∧ length (AppComponent.sent w') = 5
        ∧ Forall (λ r, read_only r ∧ Http.is_write (Http.method r) = false)
            (AppComponent.sent w').
Proof.
  eexists. split; [vm_compute; reflexivity|]. split; [reflexivity|].
  refine (proj2 (proj2 (proj2 (proj2 every_request_is_a_get))) overtaken_run
            (AppComponent.world_of AppComponent.initial) _ _ _);
    [vm_compute; reflexivity|constructor].
Defined.

(** ** Overlapping records requests *)

(** [loadRecords] cancels nothing: every subscription in flight stays in
    flight next to the new one. *)
Lemma loadRecords_cancels_nothing w :
  AppComponent.inflight (AppComponent.exec AppComponent.loadRecords w)
  = <[length (AppComponent.sent w) := AppComponent.RecordsSubscriber]>
      (AppComponent.inflight w).
Proof. done. Qed.

(** The claim of C7 fails when the responses come back out of order: with
    the records requests 1 and 4 both in flight, request 4 issued last, the
    response to 4 arrives first and the response to 1 last; the view ends
    up with the response to request 1. *)
Lemma stale_response_wins :
  ∃ w1 w',
    AppComponent.run two_records_requests
      (AppComponent.world_of AppComponent.initial) = Some w1
    ∧ length (AppComponent.sent w1) = 5
    ∧ AppComponent.inflight w1 !! 1 = Some AppComponent.RecordsSubscriber
    ∧ AppComponent.inflight w1 !! 4 = Some AppComponent.RecordsSubscriber
    ∧ AppComponent.run overtaken_run
        (AppComponent.world_of AppComponent.initial) = Some w'
    ∧ AppComponent.inflight w' !! 1 = None
    ∧ AppComponent.inflight w' !! 4 = None
    ∧ AppComponent.records (AppComponent.this w')
      = PaginatedRecordsResponse.items first_page
    ∧ AppComponent.totalPages (AppComponent.this w')
      = PaginatedRecordsResponse.total_pages first_page
    ∧ AppComponent.records (AppComponent.this w')
      ≠ PaginatedRecordsResponse.items filtered_page
    ∧ AppComponent.totalPages (AppComponent.this w')
      ≠ PaginatedRecordsResponse.total_pages filtered_page.
Proof.
  do 2 eexists.
  split; [vm_compute; reflexivity|].
  split; [reflexivity|].
  split; [by vm_compute|]. split; [by vm_compute|].
  split; [vm_compute; reflexivity|].
  split; [by vm_compute|]. split; [by vm_compute|].
  repeat split; by vm_compute.
Qed.

Lemma call_keeps_records o w :
  let w' := AppComponent.exec (AppComponent.call o) w in
  AppComponent.records (AppComponent.this w')
  = AppComponent.records (AppComponent.this w)
  ∧ AppComponent.totalPages (AppComponent.this w')
    = AppComponent.totalPages (AppComponent.this w).
Proof.
  destruct o; run_action; split_guards; by run_action.
Qed.

Lemma step_keeps_records e w w' :
  is_records_response e = false →
  AppComponent.step w e = Some w' →
  AppComponent.records (AppComponent.this w')
  = AppComponent.records (AppComponent.this w)
  ∧ AppComponent.totalPages (AppComponent.this w')
    = AppComponent.totalPages (AppComponent.this w).
Proof.
  destruct e as [o|id n]; cbn.
  - intros _ [= <-]. apply call_keeps_records.
  - intros Hn (k & h & _ & Hobs & ->)%notify_inv.
    destruct n, k; try done; cbn in Hobs; by injection Hobs as <-.
Qed.

Lemma run_keeps_records evs w w' :
  Forall (λ e, is_records_response e = false) evs →
  AppComponent.run evs w = Some w' →
  AppComponent.records (AppComponent.this w')
  = AppComponent.records (AppComponent.this w)
  ∧ AppComponent.totalPages (AppComponent.this w')
    = AppComponent.totalPages (AppComponent.this w).
Proof.
  intros Hevs. revert w.
  induction Hevs as [|e evs He _ IH]; intros w; cbn.
  - by intros [= <-].
  - destruct (AppComponent.step w e) as [w1|] eqn:Hstep; cbn; [|done].
    intros [-> ->]%IH. by eapply step_keeps_records.
Qed.

(** C7, amended.  The view state ([records], [totalPages]) always
    reflects the records response that was delivered last, whichever
    request it answers: when a records response is delivered and no other
    records response is delivered after it, the view shows its items and
    its [total_pages] at the end of the run. *)
Theorem last_delivered_records_response_wins evs1 id resp evs2 w w' :
  AppComponent.run
    (evs1 ++ AppComponent.Notify id (AppComponent.NextRecords resp) :: evs2) w
  = Some w' →
  Forall (λ e, is_records_response e = false) evs2 →
  AppComponent.records (AppComponent.this w')
  = PaginatedRecordsResponse.items resp
  ∧ AppComponent.totalPages (AppComponent.this w')
    = PaginatedRecordsResponse.total_pages resp.
Proof.
  rewrite run_app. intros Hrun Hevs2.
  destruct (AppComponent.run evs1 w) as [w1|]; cbn in Hrun; [|done].
  destruct (AppComponent.notify id (AppComponent.NextRecords resp) w1)
    as [w2|] eqn:Hnotify; cbn in Hrun; [|done].
  destruct (run_keeps_records _ _ _ Hevs2 Hrun) as [-> ->].
  apply notify_records_next in Hnotify as ->. by run_action.
Qed.

Lemma last_delivered_records_response_wins_witness :
  ∃ w', AppComponent.run overtaken_run
          (AppComponent.world_of AppComponent.initial) = Some w'
        ∧ AppComponent.records (AppComponent.this w') = [account "ada" 40]
        ∧ AppComponent.totalPages (AppComponent.this w') = Js.of_Z 3.
Proof.
  eexists. split; [vm_compute; reflexivity|].
  refine (last_delivered_records_response_wins
            (two_records_requests
             ++ [AppComponent.Notify 4 (AppComponent.NextRecords filtered_page)])
            1 first_page [] (AppComponent.world_of AppComponent.initial) _ _ _);
    [vm_compute; reflexivity|constructor].
Defined.

(** ** Initialisation *)

(** C8.  [ngOnInit] issues exactly four requests, in this order: summary,
    records (for the current page and filters), health-by-status and
    notifications-over-time, each with its own observer.  When the
    response arrives, each observer binds it to its part of the view: the
    summary to [summary] and the pie chart, the page of records to
    [records], [totalPages] and the top-accounts chart, the health items to
    the health bar chart, the time series to the notifications line
    chart. *)
Theorem ngOnInit_issues_four_requests (w : AppComponent.World) :
  let c := AppComponent.this w in
  let n := length (AppComponent.sent w) in
  let w' := AppComponent.exec AppComponent.ngOnInit w in
  AppComponent.sent w'
  = AppComponent.sent w
    ++ [AppService.getSummary;
        AppService.getRecords (AppComponent.page c) (AppComponent.pageSize c)
          (Js.or_undefined (AppComponent.filterStatus c))
          (Js.nullish_to_undefined (AppComponent.filterMinHealth c))
          (Js.or_undefined (AppComponent.filterSearch c));
        AppService.getHealthByStatus;
        AppService.getNotificationsOverTime]
  ∧ AppComponent.inflight w'
    = <[n + 3 := AppComponent.NotificationsOverTimeSubscriber]>
        (<[n + 2 := AppComponent.HealthByStatusSubscriber]>
           (<[n + 1 := AppComponent.RecordsSubscriber]>
              (<[n := AppComponent.SummarySubscriber]>
                 (AppComponent.inflight w))))
  ∧ (∀ d,
       AppComponent.observe AppComponent.SummarySubscriber
         (AppComponent.NextSummary d) = Some (AppComponent.summary_next d)
       ∧ let c' := AppComponent.this
                     (AppComponent.exec (AppComponent.summary_next d) w') in
         AppComponent.summary c' = Some d
         ∧ AppComponent.loadingSummary c' = false
         ∧ AppComponent.pieData c'
           = [SummaryResponse.active_accounts d;
              SummaryResponse.inactive_accounts d])
  ∧ (∀ resp,
       AppComponent.observe AppComponent.RecordsSubscriber
         (AppComponent.NextRecords resp) = Some (AppComponent.records_next resp)
       ∧ let c' := AppComponent.this
                     (AppComponent.exec (AppComponent.records_next resp) w') in
         AppComponent.records c' = PaginatedRecordsResponse.items resp
         ∧ AppComponent.totalPages c'
           = PaginatedRecordsResponse.total_pages resp
         ∧ AppComponent.recordsLoading c' = false
         ∧ shows_top_five c')
  ∧ (∀ items,
       AppComponent.observe AppComponent.HealthByStatusSubscriber
         (AppComponent.NextHealthByStatus items)
       = Some (AppComponent.health_next items)
       ∧ let c' := AppComponent.this
                     (AppComponent.exec (AppComponent.health_next items) w') in
         AppComponent.healthBarLabels c' = HealthByStatusItem.status <$> items
         ∧ AppComponent.healthBarDatasets c'
           = [{| AppComponent.data :=
                   HealthByStatusItem.account_count <$> items;
                 AppComponent.label := "Accounts" |}])
  ∧ (∀ items,
       AppComponent.observe AppComponent.NotificationsOverTimeSubscriber
         (AppComponent.NextNotificationsOverTime items)
       = Some (AppComponent.notifications_next items)
       ∧ let c' := AppComponent.this
                     (AppComponent.exec
                        (AppComponent.notifications_next items) w') in
         AppComponent.notificationsLineLabels c'
         = NotificationsOverTimeItem.date <$> items
         ∧ AppComponent.notificationsLineDatasets c'
           = [{| AppComponent.data :=
                   NotificationsOverTimeItem.total_notifications_billed
                     <$> items;
                 AppComponent.label := "Notifications Billed" |}]).
Proof.
  split.
  { run_action. read_fields. by rewrite <- !(assoc_L (++)). }
  split.
  { run_action. rewrite !length_app. cbn [length].
    by rewrite <- !Nat.add_assoc. }
  split; [by intros d|].
  split.
  { intros resp. split; [done|]. split; [done|]. split; [done|].
    split; [done|].
    apply records_next_shows_top_five. }
  by split; intros items.
Qed.

(** * Further properties of the component *)

(** ** Page navigation *)

Lemma loadRecords_spec w :
  let w' := AppComponent.exec AppComponent.loadRecords w in
  AppComponent.sent w' = AppComponent.sent w ++ [records_request (AppComponent.this w)]
  ∧ AppComponent.this w'
    = AppComponent.set_recordsError None
        (AppComponent.set_recordsLoading true (AppComponent.this w)).
Proof. done. Qed.

Lemma nextPage_go w :
  before_last_page (AppComponent.this w) = true →
  AppComponent.exec AppComponent.nextPage w
  = AppComponent.exec AppComponent.loadRecords
      (AppComponent.exec
         (AppComponent.assign
            (λ c, AppComponent.set_page (AppComponent.page c + 1) c)) w).
Proof. unfold before_last_page. intros Hpage. run_action. by rewrite Hpage. Qed.

Lemma prevPage_go w :
  (1 < AppComponent.page (AppComponent.this w))%Z →
  AppComponent.exec AppComponent.prevPage w
  = AppComponent.exec AppComponent.loadRecords
      (AppComponent.exec
         (AppComponent.assign
            (λ c, AppComponent.set_page (AppComponent.page c - 1) c)) w).
Proof. intros Hpage. run_action. case_bool_decide; [done|lia]. Qed.

(** X1.  [nextPage] on the last page, or beyond it, does nothing at all:
    no field changes and no request is issued.  Before the last page it
    moves one page forward and issues exactly one records request, for the
    new page with the current page size and filters.  "Before the last
    page" is the guard [page < totalPages] as JavaScript evaluates it,
    whatever number [totalPages] is. *)
Theorem nextPage_stops_at_last_page (w : AppComponent.World) :
  let c := AppComponent.this w in
  let w' := AppComponent.exec AppComponent.nextPage w in
  (before_last_page c = false → w' = w)
  ∧ (before_last_page c = true →
     AppComponent.page (AppComponent.this w') = (AppComponent.page c + 1)%Z
     ∧ AppComponent.totalPages (AppComponent.this w') = AppComponent.totalPages c
     ∧ AppComponent.recordsLoading (AppComponent.this w') = true
     ∧ AppComponent.sent w'
       = AppComponent.sent w
         ++ [records_request
               (AppComponent.set_page (AppComponent.page c + 1) c)]).
Proof.
  unfold before_last_page.
  split; intros Hpage; run_action; rewrite Hpage; run_action.
  - by destruct w.
  - done.
Qed.

Lemma nextPage_stops_at_last_page_witness :
  AppComponent.exec AppComponent.nextPage
    (AppComponent.world_of AppComponent.initial)
  = AppComponent.world_of AppComponent.initial
  ∧ AppComponent.page
      (AppComponent.this (AppComponent.exec AppComponent.nextPage middle_page))
    = 3%Z.
Proof.
  split.
  - refine (proj1 (nextPage_stops_at_last_page
                     (AppComponent.world_of AppComponent.initial)) _).
    reflexivity.
  - refine (proj1 (proj2 (nextPage_stops_at_last_page middle_page) _)).
    reflexivity.
Defined.

(** X2.  [prevPage] on page 1, or below it, does nothing at all.  Above
    page 1 it moves one page back and issues exactly one records request,
    for the new page with the current page size and filters. *)
Theorem prevPage_stops_at_first_page (w : AppComponent.World) :
  let c := AppComponent.this w in
  let w' := AppComponent.exec AppComponent.prevPage w in
  ((AppComponent.page c ≤ 1)%Z → w' = w)
  ∧ ((1 < AppComponent.page c)%Z →
     AppComponent.page (AppComponent.this w') = (AppComponent.page c - 1)%Z
     ∧ AppComponent.totalPages (AppComponent.this w') = AppComponent.totalPages c
     ∧ AppComponent.recordsLoading (AppComponent.this w') = true
     ∧ AppComponent.sent w'
       = AppComponent.sent w
         ++ [records_request
               (AppComponent.set_page (AppComponent.page c - 1) c)]).
Proof.
  split; intros Hpage; run_action; case_bool_decide; try lia; run_action.
  - by destruct w.
  - done.
Qed.

Lemma prevPage_stops_at_first_page_witness :
  AppComponent.exec AppComponent.prevPage
    (AppComponent.world_of AppComponent.initial)
  = AppComponent.world_of AppComponent.initial
  ∧ AppComponent.page
      (AppComponent.this (AppComponent.exec AppComponent.prevPage middle_page))
    = 1%Z.
Proof.
  split.
  - refine (proj1 (prevPage_stops_at_first_page
                     (AppComponent.world_of AppComponent.initial)) _).
    cbn. lia.
  - refine (proj1 (proj2 (prevPage_stops_at_first_page middle_page) _)).
    cbn. lia.
Defined.

(** X3.  Going forward and back again returns to the page one started
    from: with [0 < page < totalPages], [nextPage] followed by [prevPage]
    leaves [page] as it was and has issued two records requests, the first
    for the next page and the second for the original one.  The other way
    round, with [1 < page <= totalPages], [prevPage] followed by [nextPage]
    does the same.  The comparisons with [totalPages] are JavaScript's, on
    whatever number [totalPages] is. *)
Theorem nextPage_prevPage_round_trip (w : AppComponent.World) :
  let c := AppComponent.this w in
  ((0 < AppComponent.page c)%Z ∧ before_last_page c = true →
   let w' := AppComponent.exec AppComponent.prevPage
               (AppComponent.exec AppComponent.nextPage w) in
   AppComponent.page (AppComponent.this w') = AppComponent.page c
   ∧ AppComponent.sent w'
     = AppComponent.sent w
       ++ [records_request (AppComponent.set_page (AppComponent.page c + 1) c);
           records_request c])
  ∧ ((1 < AppComponent.page c)%Z
     ∧ Js.leb (Js.of_Z (AppComponent.page c)) (AppComponent.totalPages c) = true →
     let w' := AppComponent.exec AppComponent.nextPage
                 (AppComponent.exec AppComponent.prevPage w) in
     AppComponent.page (AppComponent.this w') = AppComponent.page c
     ∧ AppComponent.sent w'
       = AppComponent.sent w
         ++ [records_request (AppComponent.set_page (AppComponent.page c - 1) c);
             records_request c]).
Proof.
  cbv zeta. split; intros [Hpage Htotal].
  - rewrite nextPage_go by done.
    rewrite prevPage_go by (run_action; read_fields; lia).
    run_action. read_fields. unfold records_request. read_fields.
    by rewrite <- (assoc_L (++)), Z.add_simpl_r.
  - rewrite prevPage_go by lia.
    rewrite nextPage_go
      by (unfold before_last_page; run_action; read_fields;
          by apply leb_pred_ltb).
    run_action. read_fields. unfold records_request. read_fields.
    by rewrite <- (assoc_L (++)), Z.sub_add.
Qed.

Lemma nextPage_prevPage_round_trip_witness :
  AppComponent.page
    (AppComponent.this
       (AppComponent.exec AppComponent.prevPage
          (AppComponent.exec AppComponent.nextPage middle_page))) = 2%Z
  ∧ AppComponent.page
      (AppComponent.this
         (AppComponent.exec AppComponent.nextPage
            (AppComponent.exec AppComponent.prevPage middle_page))) = 2%Z.
Proof.
  split.
  - refine (proj1 (proj1 (nextPage_prevPage_round_trip middle_page) _)).
    split; [cbn; lia|reflexivity].
  - refine (proj1 (proj2 (nextPage_prevPage_round_trip middle_page) _)).
    split; [cbn; lia|reflexivity].
Defined.

(** ** Filters and the records request *)

(** X4.  [clearFilters] empties the three filters and goes back to page
    1, whatever was typed and whichever page was shown, and the one request
    it issues is the unfiltered first page: its query is [page=1] and
    [page_size] and nothing else.  The table and the page count are left as
    they are until the response arrives, and clearing again changes nothing
    more in the component. *)
Theorem clearFilters_requests_unfiltered_first_page (w : AppComponent.World) :
  let c := AppComponent.this w in
  let w' := AppComponent.exec AppComponent.clearFilters w in
  let c' := AppComponent.this w' in
  AppComponent.filterStatus c' = ""
  ∧ AppComponent.filterMinHealth c' = Js.undefined
  ∧ AppComponent.filterSearch c' = ""
  ∧ AppComponent.page c' = 1%Z
  ∧ AppComponent.records c' = AppComponent.records c
  ∧ AppComponent.totalPages c' = AppComponent.totalPages c
  ∧ AppComponent.sent w'
    = AppComponent.sent w
      ++ [Http.http_get "http://localhost:8000/records"
            [("page", Http.PNum 1);
             ("page_size", Http.PNum (AppComponent.pageSize c))]]
  ∧ AppComponent.this (AppComponent.exec AppComponent.clearFilters w') = c'.
Proof. by repeat split. Qed.

Lemma getRecords_get page pageSize status minHealth search :
  let q := Http.params
             (AppService.getRecords page pageSize status minHealth search) in
  Http.get "page" q = Some (Http.PNum page)
  ∧ Http.get "page_size" q = Some (Http.PNum pageSize)
  ∧ Http.get "status" q = string_param status
  ∧ Http.get "min_health" q = number_param minHealth
  ∧ Http.get "search" q = string_param search.
Proof.
  destruct status as [| |[|a1 s1]], minHealth as [| |n],
    search as [| |[|a2 s2]]; by repeat split.
Qed.

Lemma getRecords_normal page pageSize status minHealth search :
  AppService.getRecords page pageSize status minHealth search
  = AppService.getRecords page pageSize
      (if Js.truthy status then status else Js.undefined)
      (Js.nullish_to_undefined minHealth)
      (if Js.truthy search then search else Js.undefined).
Proof.
  by destruct status as [| |[|a1 s1]], minHealth as [| |n],
    search as [| |[|a2 s2]].
Qed.

Lemma string_param_normal (v v' : Js.Maybe string) :
  string_param v = string_param v' →
  (if Js.truthy v then v else Js.undefined)
  = (if Js.truthy v' then v' else Js.undefined).
Proof.
  destruct v as [| |[|a s]], v' as [| |[|a' s']]; cbn; try done.
  by intros [= -> ->].
Qed.

Lemma number_param_normal (v v' : Js.Maybe Z) :
  number_param v = number_param v' →
  Js.nullish_to_undefined v = Js.nullish_to_undefined v'.
Proof. destruct v, v'; cbn; try done. by intros [= ->]. Qed.

(** X5.  Two calls of [getRecords] build the same request exactly when
    they agree on [page] and [pageSize] and on each filter up to absence:
    [undefined], [null] and, for [status] and [search], the empty string
    all stand for "no filter" and cannot be told apart in the request; any
    other difference in the arguments shows in the query. *)
Theorem getRecords_same_request_iff
    page pageSize status minHealth search
    page' pageSize' status' minHealth' search' :
  AppService.getRecords page pageSize status minHealth search
  = AppService.getRecords page' pageSize' status' minHealth' search'
  ↔ page = page' ∧ pageSize = pageSize'
    ∧ string_param status = string_param status'
    ∧ number_param minHealth = number_param minHealth'
    ∧ string_param search = string_param search'.
Proof.
  split.
  - intros Heq.
    destruct (getRecords_get page pageSize status minHealth search)
      as (Hp & Hps & Hst & Hmh & Hse).
    destruct (getRecords_get page' pageSize' status' minHealth' search')
      as (Hp' & Hps' & Hst' & Hmh' & Hse').
    cbv zeta in *. rewrite Heq in Hp, Hps, Hst, Hmh, Hse.
    repeat split; congruence.
  - intros (-> & -> & Hst%string_param_normal & Hmh%number_param_normal
            & Hse%string_param_normal).
    rewrite (getRecords_normal _ _ status), (getRecords_normal _ _ status').
    by rewrite Hst, Hmh, Hse.
Qed.

(** X6.  The conversion of empty filters to [undefined] in [loadRecords]
    makes no difference to the request: [getRecords] called on the filter
    fields as they are builds the same request, because its own guards
    leave out an empty string and a [null] just the same. *)
Theorem loadRecords_conversion_is_redundant (w : AppComponent.World) :
  let c := AppComponent.this w in
  AppComponent.sent (AppComponent.exec AppComponent.loadRecords w)
  = AppComponent.sent w
    ++ [AppService.getRecords (AppComponent.page c) (AppComponent.pageSize c)
          (Js.val (AppComponent.filterStatus c))
          (AppComponent.filterMinHealth c)
          (Js.val (AppComponent.filterSearch c))].
Proof.
  cbv zeta. rewrite (proj1 (loadRecords_spec w)). unfold records_request.
  f_equal. f_equal.
  rewrite (getRecords_normal _ _ (Js.val _) (AppComponent.filterMinHealth _)).
  by destruct (AppComponent.filterStatus (AppComponent.this w)),
    (AppComponent.filterSearch (AppComponent.this w)),
    (AppComponent.filterMinHealth (AppComponent.this w)).
Qed.

(** ** What holds all along a run *)

Lemma run_invariant (P : AppComponent.World → Prop) :
  (∀ w e w', P w → AppComponent.step w e = Some w' → P w') →
  ∀ evs w w', AppComponent.run evs w = Some w' → P w → P w'.
Proof.
  intros Hstep evs. induction evs as [|e evs IH]; intros w w'; cbn.
  - by intros [= <-].
  - destruct (AppComponent.step w e) as [w1|] eqn:He; cbn; [|done].
    intros Hrun Hw. eapply IH; [done|]. by eapply Hstep.
Qed.

(** Splits a delivered notification into the handler that ran. *)
Ltac notified H :=
  apply notify_inv in H as (?k & ?h & ?Hin & Hobs & ->);
  match type of Hobs with
  | AppComponent.observe ?k ?n = _ =>
      destruct n, k; try done; cbn in Hobs; injection Hobs as <-
  end.

Lemma asks_page_getRecords p ps st mh se :
  (1 ≤ p)%Z → asks_page_from_1 (AppService.getRecords p ps st mh se).
Proof.
  intros Hp v. rewrite (proj1 (getRecords_get p ps st mh se)).
  intros [= <-]. by exists p.
Qed.

Lemma asks_page_no_query u :
  asks_page_from_1 (Http.http_get u Http.new_params).
Proof. by intros v. Qed.

Lemma step_page_from_1 w e w' :
  (1 ≤ AppComponent.page (AppComponent.this w))%Z
  ∧ Forall asks_page_from_1 (AppComponent.sent w) →
  AppComponent.step w e = Some w' →
  (1 ≤ AppComponent.page (AppComponent.this w'))%Z
  ∧ Forall asks_page_from_1 (AppComponent.sent w').
Proof.
  intros [Hpage Hsent]. destruct e as [o|id n]; cbn.
  - intros [= <-].
    destruct o; run_action; split_guards; run_action; read_fields;
      rewrite ?Forall_app, ?Forall_singleton;
      repeat split; try done; try lia;
      first [apply asks_page_no_query
            |apply asks_page_getRecords; read_fields; lia].
  - intros Hn. notified Hn; by run_action.
Qed.

(** X7.  The lower bound of the pagination always holds: in any run of
    method calls and notifications, in any order and whatever the
    responses say, [page] stays at 1 or above once it is, and every request
    that carries a [page] parameter asks for page 1 or above. *)
Theorem page_never_below_1 evs (w w' : AppComponent.World) :
  AppComponent.run evs w = Some w' →
  (1 ≤ AppComponent.page (AppComponent.this w))%Z →
  Forall asks_page_from_1 (AppComponent.sent w) →
  (1 ≤ AppComponent.page (AppComponent.this w'))%Z
  ∧ Forall asks_page_from_1 (AppComponent.sent w').
Proof.
  intros Hrun Hpage Hsent.
  by apply (run_invariant
              (λ w, (1 ≤ AppComponent.page (AppComponent.this w))%Z
                    ∧ Forall asks_page_from_1 (AppComponent.sent w))
              step_page_from_1 evs w w').
Qed.

Lemma page_never_below_1_witness :
  ∃ w', AppComponent.run (empty_result_run ++ [AppComponent.Call AppComponent.OpPrevPage])
          (AppComponent.world_of AppComponent.initial) = Some w'
        ∧ (1 ≤ AppComponent.page (AppComponent.this w'))%Z
        ∧ Forall asks_page_from_1 (AppComponent.sent w').
Proof.
  eexists. split; [vm_compute; reflexivity|].
  refine (page_never_below_1
            (empty_result_run ++ [AppComponent.Call AppComponent.OpPrevPage])
            (AppComponent.world_of AppComponent.initial) _ _ _ _);
    [vm_compute; reflexivity|cbn; lia|constructor].
Defined.

Lemma asks_page_size_getRecords p ps st mh se :
  asks_page_size ps (AppService.getRecords p ps st mh se).
Proof.
  intros _. apply (getRecords_get p ps st mh se).
Qed.

Lemma asks_page_size_other size u :
  u ≠ "http://localhost:8000/records" →
  asks_page_size size (Http.http_get u Http.new_params).
Proof. by intros Hu ?. Qed.

Lemma step_constants size w e w' :
  AppComponent.pageSize (AppComponent.this w) = size
  ∧ Forall (asks_page_size size) (AppComponent.sent w) →
  AppComponent.step w e = Some w' →
  constants (AppComponent.this w') = constants (AppComponent.this w)
  ∧ AppComponent.pageSize (AppComponent.this w') = size
  ∧ Forall (asks_page_size size) (AppComponent.sent w').
Proof.
  intros [<- Hsent]. destruct e as [o|id n]; cbn.
  - intros [= <-].
    destruct o; run_action; split_guards; run_action; read_fields;
      rewrite ?Forall_app, ?Forall_singleton;
      repeat split; try done;
      first [apply asks_page_size_getRecords
            |by apply asks_page_size_other].
  - intros Hn. notified Hn; by run_action.
Qed.

(** X8.  No method and no handler assigns [pageSize], [title],
    [pieLabels] or the chart options: they are the same after any run.  So
    every records request of a run asks for pages of the size the component
    started with; from the initial component that is 5. *)
Theorem page_size_never_changes evs (w w' : AppComponent.World) :
  AppComponent.run evs w = Some w' →
  Forall (asks_page_size (AppComponent.pageSize (AppComponent.this w)))
    (AppComponent.sent w) →
  constants (AppComponent.this w') = constants (AppComponent.this w)
  ∧ Forall (asks_page_size (AppComponent.pageSize (AppComponent.this w)))
      (AppComponent.sent w').
Proof.
  intros Hrun Hsent.
  pose (size := AppComponent.pageSize (AppComponent.this w)).
  apply (run_invariant
           (λ w1, constants (AppComponent.this w1)
                  = constants (AppComponent.this w)
                  ∧ Forall (asks_page_size size) (AppComponent.sent w1))
           ) with (evs := evs) (w := w); [|done|done].
  intros w1 e w2 [Hconst Hsent1] Hstep.
  destruct (step_constants size w1 e w2) as (Hc & _ & Hs); [|done|].
  - split; [|done]. by injection Hconst.
  - split; [|done]. by rewrite Hc.
Qed.

Lemma page_size_never_changes_witness :
  ∃ w', AppComponent.run overtaken_run
          (AppComponent.world_of AppComponent.initial) = Some w'
        ∧ AppComponent.pageSize (AppComponent.this w') = 5%Z
        ∧ Forall (asks_page_size 5) (AppComponent.sent w').
Proof.
  eexists. split; [vm_compute; reflexivity|].
  destruct (page_size_never_changes overtaken_run
              (AppComponent.world_of AppComponent.initial) _
              ltac:(vm_compute; reflexivity) ltac:(constructor))
    as [Hconst Hsent].
  split; [reflexivity|exact Hsent].
Defined.

Lemma step_charts_aligned w e w' :
  length (AppComponent.pieLabels (AppComponent.this w)) = 2
  ∧ charts_aligned (AppComponent.this w) →
  AppComponent.step w e = Some w' →
  length (AppComponent.pieLabels (AppComponent.this w')) = 2
  ∧ charts_aligned (AppComponent.this w').
Proof.
  unfold charts_aligned, aligned.
  intros (Hlabels & Hpie & Hhealth & Hline & Htop).
  destruct e as [o|id n]; cbn.
  - intros [= <-].
    destruct o; run_action; split_guards; run_action; read_fields;
      repeat split; try done.
    eexists. split; [done|]. cbn. by rewrite !length_fmap.
  - intros Hn. notified Hn; run_action; read_fields; repeat split; try done;
      eexists; (split; [done|]); cbn; by rewrite !length_fmap.
Qed.

(** X9.  Every chart keeps one number per label.  From a component whose
    pie chart has its two labels and whose charts are aligned (the initial
    component is one), any run of method calls and notifications, with any
    response bodies, leaves the pie data with two numbers and each of the
    three bar and line charts with a single dataset that has exactly as
    many numbers as the chart has labels. *)
Theorem charts_stay_aligned evs (w w' : AppComponent.World) :
  AppComponent.run evs w = Some w' →
  length (AppComponent.pieLabels (AppComponent.this w)) = 2 →
  charts_aligned (AppComponent.this w) →
  charts_aligned (AppComponent.this w').
Proof.
  intros Hrun Hlabels Haligned.
  by apply (run_invariant
              (λ w, length (AppComponent.pieLabels (AppComponent.this w)) = 2
                    ∧ charts_aligned (AppComponent.this w))
              step_charts_aligned evs w w').
Qed.

Lemma initial_charts_aligned : charts_aligned AppComponent.initial.
Proof. split; [done|]. by repeat split; eexists. Qed.

Lemma charts_stay_aligned_witness :
  ∃ w', AppComponent.run overtaken_run
          (AppComponent.world_of AppComponent.initial) = Some w'
        ∧ AppComponent.topAccountsBarLabels (AppComponent.this w') = ["ada"]
        ∧ charts_aligned (AppComponent.this w').
Proof.
  eexists. split; [vm_compute; reflexivity|]. split; [reflexivity|].
  refine (charts_stay_aligned overtaken_run
            (AppComponent.world_of AppComponent.initial) _ _ _ _);
    [vm_compute; reflexivity|reflexivity|apply initial_charts_aligned].
Defined.

(** ** Subscriptions *)

Lemma inflight_wf_issue c cl snt inf con r k :
  Http.url r = endpoint k →
  inflight_wf {| AppComponent.this := c; AppComponent.called := cl;
                 AppComponent.sent := snt;
                 AppComponent.inflight := inf; AppComponent.console := con |} →
  inflight_wf {| AppComponent.this := c; AppComponent.called := cl;
                 AppComponent.sent := snt ++ [r];
                 AppComponent.inflight := <[length snt := k]> inf;
                 AppComponent.console := con |}.
Proof.
  intros Hurl Hw id k'. cbn.
  destruct (decide (id = length snt)) as [->|Hne].
  - rewrite lookup_insert_eq. intros [= <-]. exists r.
    by rewrite list_lookup_middle.
  - rewrite lookup_insert_ne by done.
    intros (r' & Hr' & Hurl')%Hw. exists r'. split; [|done].
    by apply lookup_app_l_Some.
Qed.

Lemma inflight_wf_frame w w' :
  AppComponent.sent w' = AppComponent.sent w →
  AppComponent.inflight w' ⊆ AppComponent.inflight w →
  inflight_wf w → inflight_wf w'.
Proof.
  intros Hsent Hsub Hw id k Hid. rewrite Hsent. apply Hw.
  by eapply lookup_weaken.
Qed.

Lemma url_getRecords p ps st mh se :
  Http.url (AppService.getRecords p ps st mh se)
  = endpoint AppComponent.RecordsSubscriber.
Proof. done. Qed.

Lemma call_inflight_wf o w :
  inflight_wf w → inflight_wf (AppComponent.exec (AppComponent.call o) w).
Proof.
  intros Hw.
  destruct o; run_action; split_guards; run_action;
    repeat (apply inflight_wf_issue;
            [first [apply url_getRecords|reflexivity]|]);
    by apply (inflight_wf_frame w).
Qed.

Lemma observe_inflight k n h w :
  AppComponent.observe k n = Some h →
  AppComponent.inflight (AppComponent.exec h w) = AppComponent.inflight w.
Proof. destruct n, k; cbn; intros [= <-]; done. Qed.

Lemma step_inflight_wf w e w' :
  inflight_wf w → AppComponent.step w e = Some w' → inflight_wf w'.
Proof.
  intros Hw. destruct e as [o|id n]; cbn.
  - intros [= <-]. by apply call_inflight_wf.
  - intros (k & h & _ & Hobs & ->)%notify_inv.
    apply (inflight_wf_frame w); [| |done].
    + by rewrite (observe_sent _ _ _ _ Hobs).
    + rewrite (observe_inflight _ _ _ _ Hobs). apply delete_subseteq.
Qed.

(** X10.  Observers and requests never get mixed up: in any run, every
    subscription in flight waits for a request that was really issued, and
    that request went to the endpoint of its observer - the summary
    observer to [/summary], the records observer to [/records], and so on.
    A subscription is in flight from [subscribe] until its notification. *)
Theorem observers_wait_for_their_own_request evs (w w' : AppComponent.World) :
  AppComponent.run evs w = Some w' →
  inflight_wf w →
  inflight_wf w'
  ∧ ∀ id n w'', AppComponent.notify id n w' = Some w'' →
                AppComponent.inflight w'' = delete id (AppComponent.inflight w')
                ∧ ∃ k r, AppComponent.inflight w' !! id = Some k
                         ∧ AppComponent.sent w' !! id = Some r
                         ∧ Http.url r = endpoint k.
Proof.
  intros Hrun Hw.
  assert (Hw' : inflight_wf w').
  { by apply (run_invariant inflight_wf step_inflight_wf evs w w'). }
  split; [done|].
  intros id n w'' (k & h & Hin & Hobs & ->)%notify_inv.
  split; [by rewrite (observe_inflight _ _ _ _ Hobs)|].
  destruct (Hw' id k Hin) as (r & Hr & Hurl). by exists k, r.
Qed.

Lemma observers_wait_for_their_own_request_witness :
  ∃ w', AppComponent.run two_records_requests
          (AppComponent.world_of AppComponent.initial) = Some w'
        ∧ inflight_wf w'.
Proof.
  eexists. split; [vm_compute; reflexivity|].
  refine (proj1 (observers_wait_for_their_own_request two_records_requests
                   (AppComponent.world_of AppComponent.initial) _ _ _));
    [vm_compute; reflexivity|].
  intros id k Hid. cbn in Hid. by rewrite lookup_empty in Hid.
Defined.

(** ** Responses of different requests *)

Lemma observe_this_only k n h w1 w2 :
  AppComponent.observe k n = Some h →
  AppComponent.this w1 = AppComponent.this w2 →
  AppComponent.this (AppComponent.exec h w1)
  = AppComponent.this (AppComponent.exec h w2).
Proof.
  destruct n, k; cbn; intros [= <-] Heq; run_action; by rewrite Heq.
Qed.

Lemma observe_this_commute k1 n1 h1 k2 n2 h2 w :
  k1 ≠ k2 →
  AppComponent.observe k1 n1 = Some h1 →
  AppComponent.observe k2 n2 = Some h2 →
  AppComponent.this (AppComponent.exec h1 (AppComponent.exec h2 w))
  = AppComponent.this (AppComponent.exec h2 (AppComponent.exec h1 w)).
Proof.
  intros Hk.
  destruct n1, k1; try done; destruct n2, k2; try done; cbn;
    intros [= <-] [= <-]; reflexivity.
Qed.

Lemma notify_Some id n k h w :
  AppComponent.inflight w !! id = Some k →
  AppComponent.observe k n = Some h →
  AppComponent.notify id n w
  = Some (AppComponent.exec h (AppComponent.complete id w)).
Proof. intros Hin Hobs. unfold AppComponent.notify. by rewrite Hin; cbn; rewrite Hobs. Qed.

(** X11.  Responses to requests of different endpoints can arrive in
    either order: when two subscriptions with different observers are in
    flight and both are notified, the component, the requests issued and
    the subscriptions left in flight are the same whichever notification
    came first.  (For two records requests the order does matter.) *)
Theorem notifications_of_different_endpoints_commute
    id1 n1 k1 id2 n2 k2 (w w1 : AppComponent.World) :
  AppComponent.inflight w !! id1 = Some k1 →
  AppComponent.inflight w !! id2 = Some k2 →
  k1 ≠ k2 →
  AppComponent.run [AppComponent.Notify id1 n1; AppComponent.Notify id2 n2] w
  = Some w1 →
  ∃ w2,
    AppComponent.run [AppComponent.Notify id2 n2; AppComponent.Notify id1 n1] w
    = Some w2
    ∧ AppComponent.this w2 = AppComponent.this w1
    ∧ AppComponent.sent w2 = AppComponent.sent w1
    ∧ AppComponent.inflight w2 = AppComponent.inflight w1.
Proof.
  intros Hin1 Hin2 Hk. assert (Hid : id1 ≠ id2) by congruence.
  cbn [AppComponent.run AppComponent.step].
  destruct (AppComponent.notify id1 n1 w) as [wa|] eqn:Hn1; cbn; [|done].
  destruct (AppComponent.notify id2 n2 wa) as [wb|] eqn:Hn2; cbn; [|done].
  intros [= <-].
  apply notify_inv in Hn1 as (k1' & h1 & Hin1' & Hobs1 & ->).
  apply notify_inv in Hn2 as (k2' & h2 & Hin2' & Hobs2 & ->).
  rewrite (observe_inflight _ _ _ _ Hobs1) in Hin2'. cbn in Hin2'.
  rewrite lookup_delete_ne in Hin2' by done.
  assert (k1' = k1) as -> by congruence.
  assert (k2' = k2) as -> by congruence.
  rewrite (notify_Some id2 n2 k2 h2) by done. cbn.
  rewrite (notify_Some id1 n1 k1 h1); [|
    rewrite (observe_inflight _ _ _ _ Hobs2); cbn;
    by rewrite lookup_delete_ne|done].
  eexists. split; [done|]. split; [|split].
  - rewrite (observe_this_only _ _ _ _
               (AppComponent.exec h2 w) Hobs1)
      by by apply (observe_this_only _ _ _ _ _ Hobs2).
    rewrite (observe_this_commute _ _ _ _ _ _ _ Hk Hobs1 Hobs2).
    symmetry. apply (observe_this_only _ _ _ _ _ Hobs2).
    by apply (observe_this_only _ _ _ _ _ Hobs1).
  - rewrite (observe_sent _ _ _ _ Hobs1), (observe_sent _ _ _ _ Hobs2). cbn.
    by rewrite (observe_sent _ _ _ _ Hobs1), (observe_sent _ _ _ _ Hobs2).
  - rewrite (observe_inflight _ _ _ _ Hobs1), (observe_inflight _ _ _ _ Hobs2).
    cbn.
    rewrite (observe_inflight _ _ _ _ Hobs1), (observe_inflight _ _ _ _ Hobs2).
    cbn. apply delete_delete.
Qed.

Lemma notifications_of_different_endpoints_commute_witness :
  ∃ w2,
    AppComponent.run
      [AppComponent.Notify 2 (AppComponent.Error "timeout");
       AppComponent.Notify 1 (AppComponent.NextRecords first_page)]
      (AppComponent.exec AppComponent.ngOnInit
         (AppComponent.world_of AppComponent.initial)) = Some w2
    ∧ AppComponent.records (AppComponent.this w2) = [account "ada" 40].
Proof.
  destruct (notifications_of_different_endpoints_commute
              1 (AppComponent.NextRecords first_page)
              AppComponent.RecordsSubscriber
              2 (AppComponent.Error "timeout")
              AppComponent.HealthByStatusSubscriber
              (AppComponent.exec AppComponent.ngOnInit
                 (AppComponent.world_of AppComponent.initial))
              _ ltac:(vm_compute; reflexivity) ltac:(vm_compute; reflexivity)
              ltac:(discriminate) ltac:(vm_compute; reflexivity))
    as (w2 & Hrun & Hthis & _).
  exists w2. split; [exact Hrun|]. by rewrite Hthis.
Defined.

(** ** Loading flags and error strings *)

(** X12.  A loading flag goes off at the first notification of its kind,
    success or failure, even while another request of the same kind is
    still in flight: the notification of a summary subscription leaves
    [loadingSummary] false, that of a records subscription leaves
    [recordsLoading] false, and every other subscription stays in flight. *)
Theorem first_notification_ends_loading id n (w w' : AppComponent.World) :
  AppComponent.notify id n w = Some w' →
  (AppComponent.inflight w !! id = Some AppComponent.SummarySubscriber →
   AppComponent.loadingSummary (AppComponent.this w') = false)
  ∧ (AppComponent.inflight w !! id = Some AppComponent.RecordsSubscriber →
     AppComponent.recordsLoading (AppComponent.this w') = false)
  ∧ (∀ id' k, id' ≠ id →
       AppComponent.inflight w !! id' = Some k →
       AppComponent.inflight w' !! id' = Some k).
Proof.
  intros (k & h & Hin & Hobs & ->)%notify_inv. rewrite Hin.
  split; [|split].
  - intros [= ->]. destruct n; try done; cbn in Hobs; by injection Hobs as <-.
  - intros [= ->]. destruct n; try done; cbn in Hobs; by injection Hobs as <-.
  - intros id' k' Hne Hin'. rewrite (observe_inflight _ _ _ _ Hobs). cbn.
    by rewrite lookup_delete_ne.
Qed.

Lemma first_notification_ends_loading_witness :
  ∃ w', AppComponent.run
          (two_records_requests
           ++ [AppComponent.Notify 1 (AppComponent.Error "timeout")])
          (AppComponent.world_of AppComponent.initial) = Some w'
        ∧ AppComponent.recordsLoading (AppComponent.this w') = false
        ∧ AppComponent.inflight w' !! 4 = Some AppComponent.RecordsSubscriber.
Proof.
  eexists. split; [vm_compute; reflexivity|].
  pose proof (first_notification_ends_loading 1 (AppComponent.Error "timeout")
                (AppComponent.exec AppComponent.applyFilters
                   (AppComponent.exec AppComponent.ngOnInit
                      (AppComponent.world_of AppComponent.initial)))
                _ ltac:(vm_compute; reflexivity)) as (_ & Hloading & Hothers).
  split.
  - apply Hloading. vm_compute. reflexivity.
  - apply Hothers; [discriminate|vm_compute; reflexivity].
Defined.



(** ** More on the top-accounts chart *)

Lemma sort_descending_id rs :
  StronglySorted billed_desc rs →
  Js.sort AppComponent.by_notifications_billed_desc rs = rs.
Proof.
  induction 1 as [|x rs Hrs IH Hx]; cbn [Js.sort]; [done|].
  rewrite IH. destruct Hx as [|y rs Hy _]; cbn; [done|].
  unfold AppComponent.by_notifications_billed_desc, billed_desc in *.
  destruct (Z.leb_spec
              (AccountInsights.notifications_billed y
               - AccountInsights.notifications_billed x) 0); [done|lia].
Qed.

(** X14.  The chart really shows the largest accounts of the page: the
    loaded records split into the charted ones (in chart order) and the
    rest, there are [min(5, n)] charted ones, and every record left out is
    billed no more than every record shown.  With five records or fewer
    nothing is left out. *)
Theorem charted_accounts_are_the_largest (w : AppComponent.World) :
  let c' := AppComponent.this
              (AppComponent.exec AppComponent.updateTopAccountsChart w) in
  ∃ top rest,
    AppComponent.topAccountsBarLabels c'
    = AccountInsights.account_label <$> top
    ∧ AppComponent.topAccountsBarDatasets c'
      = [{| AppComponent.data := AccountInsights.notifications_billed <$> top;
            AppComponent.label := "Notifications Billed" |}]
    ∧ top ++ rest ≡ₚ AppComponent.records c'
    ∧ length top = 5 `min` length (AppComponent.records c')
    ∧ length rest = length (AppComponent.records c') - 5
    ∧ ∀ a b, a ∈ top → b ∈ rest →
             (AccountInsights.notifications_billed b
              ≤ AccountInsights.notifications_billed a)%Z.
Proof.
  cbv zeta. run_action. read_fields.
  set (rs := AppComponent.records (AppComponent.this w)).
  set (sorted := Js.sort AppComponent.by_notifications_billed_desc rs).
  exists (take 5 sorted), (drop 5 sorted).
  assert (Htop : AppComponent.top_accounts rs = take 5 sorted) by done.
  rewrite Htop. split; [done|]. split; [done|].
  rewrite take_drop. split; [apply sort_perm|].
  split; [unfold sorted; by rewrite length_take, sort_length|].
  split; [unfold sorted; by rewrite length_drop, sort_length|].
  intros a b Ha Hb.
  apply (StronglySorted_app_1_elem_of billed_desc (take 5 sorted)
           (drop 5 sorted)); [|done..].
  rewrite take_drop. apply sort_billed_desc.
Qed.

(** X15.  When the loaded page is already in descending order of
    [notifications_billed] (the order a server sorting by it would send),
    the chart shows its first five records in the order of the page. *)
Theorem descending_page_is_charted_in_order (w : AppComponent.World) :
  StronglySorted billed_desc (AppComponent.records (AppComponent.this w)) →
  let c' := AppComponent.this
              (AppComponent.exec AppComponent.updateTopAccountsChart w) in
  AppComponent.topAccountsBarLabels c'
  = AccountInsights.account_label
      <$> take 5 (AppComponent.records (AppComponent.this w))
  ∧ AppComponent.topAccountsBarDatasets c'
    = [{| AppComponent.data :=
            AccountInsights.notifications_billed
              <$> take 5 (AppComponent.records (AppComponent.this w));
          AppComponent.label := "Notifications Billed" |}].
Proof.
  intros Hsorted. cbv zeta. run_action. read_fields.
  unfold AppComponent.top_accounts, Js.slice.
  by rewrite sort_descending_id, drop_0.
Qed.

Lemma descending_page_is_charted_in_order_witness :
  AppComponent.topAccountsBarLabels
    (AppComponent.this
       (AppComponent.exec AppComponent.updateTopAccountsChart
          (AppComponent.world_of
             (AppComponent.set_records
                [account "eve" 90; account "bob" 75; account "dee" 75]
                AppComponent.initial))))
  = ["eve"; "bob"; "dee"].
Proof.
  refine (proj1 (descending_page_is_charted_in_order
                   (AppComponent.world_of
                      (AppComponent.set_records
                         [account "eve" 90; account "bob" 75; account "dee" 75]
                         AppComponent.initial)) _)).
  cbn. repeat constructor; unfold billed_desc; cbn; lia.
Defined.

(** ** Repeated navigation *)

Lemma nextPage_effect w :
  let c := AppComponent.this w in
  let w' := AppComponent.exec AppComponent.nextPage w in
  let go := before_last_page c in
  AppComponent.page (AppComponent.this w')
  = (if go then AppComponent.page c + 1 else AppComponent.page c)%Z
  ∧ AppComponent.totalPages (AppComponent.this w') = AppComponent.totalPages c
  ∧ length (AppComponent.sent w')
    = length (AppComponent.sent w) + (if go then 1 else 0).
Proof.
  cbv zeta. unfold before_last_page. run_action.
  destruct (Js.ltb _ _); run_action; read_fields; repeat split;
    rewrite ?length_app; cbn [length]; lia.
Qed.

Lemma prevPage_effect w :
  let c := AppComponent.this w in
  let w' := AppComponent.exec AppComponent.prevPage w in
  let go := bool_decide (AppComponent.page c > 1)%Z in
  AppComponent.page (AppComponent.this w')
  = (if go then AppComponent.page c - 1 else AppComponent.page c)%Z
  ∧ AppComponent.totalPages (AppComponent.this w') = AppComponent.totalPages c
  ∧ length (AppComponent.sent w')
    = length (AppComponent.sent w) + (if go then 1 else 0).
Proof.
  cbv zeta. run_action.
  case_bool_decide; run_action; read_fields; repeat split;
    rewrite ?length_app; cbn [length]; lia.
Qed.

(** X16.  Pressing "next" [n] times in a row, with no response arriving in
    between, stops at the first whole page that is not below [totalPages]:
    from page [p] of a finite [totalPages] the component ends on page
    [max(p, min(p + n, ceiling(totalPages)))].  When [totalPages] is a whole
    number [t] that is [max(p, min(p + n, t))], the last page; when it is
    fractional, navigation goes on to the next whole page past it.  With an
    infinite [totalPages] every press moves, and when [totalPages] is not a
    number none does.  [totalPages] is unchanged, and exactly one records
    request was issued per page actually moved. *)
Theorem repeated_nextPage_clamps (n : nat) (w : AppComponent.World) :
  let p := AppComponent.page (AppComponent.this w) in
  let t := AppComponent.totalPages (AppComponent.this w) in
  ∃ w',
    AppComponent.run (replicate n (AppComponent.Call AppComponent.OpNextPage)) w
    = Some w'
    ∧ AppComponent.page (AppComponent.this w') = page_after_nexts t p n
    ∧ (∀ tz, t = Js.of_Z tz →
         AppComponent.page (AppComponent.this w')
         = (p `max` ((p + Z.of_nat n) `min` tz))%Z)
    ∧ AppComponent.totalPages (AppComponent.this w') = t
    ∧ length (AppComponent.sent w')
      = length (AppComponent.sent w)
        + Z.to_nat (AppComponent.page (AppComponent.this w') - p).
Proof.
  cbv zeta.
  assert (Hmain : ∃ w',
    AppComponent.run (replicate n (AppComponent.Call AppComponent.OpNextPage)) w
    = Some w'
    ∧ AppComponent.page (AppComponent.this w')
      = page_after_nexts (AppComponent.totalPages (AppComponent.this w))
          (AppComponent.page (AppComponent.this w)) n
    ∧ AppComponent.totalPages (AppComponent.this w')
      = AppComponent.totalPages (AppComponent.this w)
    ∧ length (AppComponent.sent w')
      = length (AppComponent.sent w)
        + Z.to_nat (AppComponent.page (AppComponent.this w')
                    - AppComponent.page (AppComponent.this w))).
  { revert w. induction n as [|n IH]; intros w.
    - exists w. cbn [replicate AppComponent.run]. split; [done|].
      split; [|split; [done|by rewrite Z.sub_diag, Nat.add_0_r]].
      unfold page_after_nexts.
      destruct (AppComponent.totalPages _); lia.
    - cbn [replicate AppComponent.run AppComponent.step AppComponent.call
           mbind option_bind].
      destruct (nextPage_effect w) as (Hp & Ht & Hs). cbv zeta in *.
      destruct (IH (AppComponent.exec AppComponent.nextPage w))
        as (w' & Hrun & Hp' & Ht' & Hs').
      exists w'. split; [done|].
      rewrite Hp', Ht', Hs', Hp, Ht, Hs in *.
      unfold before_last_page, page_after_nexts.
      destruct (AppComponent.totalPages (AppComponent.this w))
        as [| | |q] eqn:Htotal; cbn [Js.ltb Js.of_Z];
        [repeat split; lia..|].
      change (negb (Qle_bool q (inject_Z (AppComponent.page (AppComponent.this w)))))
        with (Js.ltb (Js.of_Z (AppComponent.page (AppComponent.this w)))
                (Js.finite q)).
      destruct (Js.ltb _ _) eqn:Hlt.
      + apply ltb_ceiling in Hlt. repeat split; lia.
      + apply not_true_iff_false in Hlt. rewrite ltb_ceiling in Hlt.
        repeat split; lia. }
  destruct Hmain as (w' & Hrun & Hp & Ht & Hs).
  exists w'. repeat split; try done.
  intros tz Htz. rewrite Hp, Htz. cbn [page_after_nexts Js.of_Z].
  by rewrite Qceiling_Z.
Qed.

(** X17.  Pressing "previous" [n] times in a row, with no response
    arriving in between, stops at the first page: from page [p] the
    component ends on page [max(p - n, 1)] (and stays on [p] when [p] is
    already at or below 1), and exactly one records request was issued per
    page actually moved. *)
Theorem repeated_prevPage_clamps (n : nat) (w : AppComponent.World) :
  let p := AppComponent.page (AppComponent.this w) in
  ∃ w',
    AppComponent.run (replicate n (AppComponent.Call AppComponent.OpPrevPage)) w
    = Some w'
    ∧ AppComponent.page (AppComponent.this w') = (p `min` ((p - Z.of_nat n) `max` 1))%Z
    ∧ AppComponent.totalPages (AppComponent.this w')
      = AppComponent.totalPages (AppComponent.this w)
    ∧ length (AppComponent.sent w')
      = length (AppComponent.sent w)
        + Z.to_nat (p - AppComponent.page (AppComponent.this w')).
Proof.
  cbv zeta. revert w. induction n as [|n IH]; intros w.
  - exists w. cbn [replicate AppComponent.run]. repeat split; [lia|].
    by rewrite Z.sub_diag, Nat.add_0_r.
  - cbn [replicate AppComponent.run AppComponent.step AppComponent.call
         mbind option_bind].
    destruct (prevPage_effect w) as (Hp & Ht & Hs). cbv zeta in *.
    destruct (IH (AppComponent.exec AppComponent.prevPage w))
      as (w' & Hrun & Hp' & Ht' & Hs').
    exists w'. split; [done|].
    rewrite Hp', Ht', Hs', Hp, Ht, Hs in *.
    case_bool_decide; repeat split; lia.
Qed.

(** ** The initial load, end to end *)

Lemma shows_top_five_frame (c c' : AppComponent.t) :
  AppComponent.records c' = AppComponent.records c →
  AppComponent.topAccountsBarLabels c' = AppComponent.topAccountsBarLabels c →
  AppComponent.topAccountsBarDatasets c'
  = AppComponent.topAccountsBarDatasets c →
  shows_top_five c → shows_top_five c'.
Proof. unfold shows_top_five. by intros -> -> ->. Qed.

(** X18.  When the component is created and all four responses of
    [ngOnInit] arrive successfully, whatever they contain, the view is
    settled: nothing is in flight, both loading flags are off, no error is
    shown, nothing was written to the console, and the summary, the table,
    the page count and the four charts show the responses. *)
Theorem initial_load_settles
    (d : SummaryResponse.t) (resp : PaginatedRecordsResponse.t)
    (hs : list HealthByStatusItem.t) (ts : list NotificationsOverTimeItem.t) :
  ∃ w',
    AppComponent.run
      [AppComponent.Call AppComponent.OpNgOnInit;
       AppComponent.Notify 0 (AppComponent.NextSummary d);
       AppComponent.Notify 1 (AppComponent.NextRecords resp);
       AppComponent.Notify 2 (AppComponent.NextHealthByStatus hs);
       AppComponent.Notify 3 (AppComponent.NextNotificationsOverTime ts)]
      (AppComponent.world_of AppComponent.initial) = Some w'
    ∧ AppComponent.inflight w' = ∅
    ∧ length (AppComponent.sent w') = 4
    ∧ AppComponent.console w' = []
    ∧ let c' := AppComponent.this w' in
      AppComponent.loadingSummary c' = false
      ∧ AppComponent.recordsLoading c' = false
      ∧ AppComponent.summaryError c' = None
      ∧ AppComponent.recordsError c' = None
      ∧ AppComponent.summary c' = Some d
      ∧ AppComponent.pieData c'
        = [SummaryResponse.active_accounts d;
           SummaryResponse.inactive_accounts d]
      ∧ AppComponent.records c' = PaginatedRecordsResponse.items resp
      ∧ AppComponent.totalPages c' = PaginatedRecordsResponse.total_pages resp
      ∧ AppComponent.page c' = 1%Z
      ∧ shows_top_five c'
      ∧ AppComponent.healthBarLabels c' = HealthByStatusItem.status <$> hs
      ∧ AppComponent.notificationsLineLabels c'
        = NotificationsOverTimeItem.date <$> ts.
Proof.
  eexists. split; [vm_compute; reflexivity|].
  split; [vm_compute; reflexivity|].
  do 2 (split; [vm_compute; reflexivity|]). cbv zeta.
  do 9 (split; [vm_compute; reflexivity|]).
  split; [|split; vm_compute; reflexivity].
  apply (shows_top_five_frame
           (AppComponent.this
              (AppComponent.exec (AppComponent.records_next resp)
                 (AppComponent.world_of AppComponent.initial))));
    [vm_compute; reflexivity..|].
  apply records_next_shows_top_five.
Qed.
